(** * webviz-subsurface: the AHM analysis plugin and the time-series model

    A shallow embedding of
      - [webviz_subsurface/plugins/_ahm_analysis_plugin.py]
      - [webviz_subsurface/plugins/_property_statistics/models/simulation_timeseries_model.py]
    Python values are modelled by their contents: a [str] is a [string], a
    [float] a binary64 [float], a [dict] a [gmap], an exception a value of
    [exn] returned on the [Raise] side of [result].  A dataframe is its
    column labels, its row labels and its cells.  What the code delegates to
    the dataframe and charting libraries, or to modules of the package that
    this development does not cover, is taken through the interfaces
    [Library] and [Framework]. *)

From Stdlib Require Import PrimFloat Ascii.
From stdpp Require Import gmap strings list pretty.

Open Scope string_scope.
Open Scope list_scope.

(** ** Python: exceptions, strings, lists *)

Module Py.

(** Who built the exception object: a [raise] statement of the package
    ([Own]), or the interpreter or a library underneath it ([Lib]). *)
Inductive origin := Lib | Own.

Inductive exc_kind :=
| KeyError | ValueError | IndexError | AttributeError | TypeError
| FileNotFoundError.

Record exn := Exn { exn_origin : origin; exn_kind : exc_kind; exn_msg : string }.

#[export] Instance origin_eq_dec : EqDecision origin.
Proof. solve_decision. Defined.
#[export] Instance exc_kind_eq_dec : EqDecision exc_kind.
Proof. solve_decision. Defined.
#[export] Instance exn_eq_dec : EqDecision exn.
Proof. solve_decision. Defined.

Inductive result (A : Type) :=
| Ok (a : A)
| Raise (e : exn).
Arguments Ok {A} a.
Arguments Raise {A} e.

#[export] Instance result_ret : MRet result := @Ok.
#[export] Instance result_bind : MBind result := λ A B f m,
  match m with Ok a => f a | Raise e => Raise e end.
#[export] Instance result_fmap : FMap result := λ A B f m,
  match m with Ok a => Ok (f a) | Raise e => Raise e end.

Definition lib_raise {A} (k : exc_kind) (msg : string) : result A :=
  Raise (Exn Lib k msg).

(** [raise k(msg)] written in the package. *)
Definition own_raise {A} (k : exc_kind) (msg : string) : result A :=
  Raise (Exn Own k msg).

(** [try: m  except k: h] *)
Definition try_except {A} (m : result A) (k : exc_kind) (h : result A) : result A :=
  match m with
  | Ok a => Ok a
  | Raise e => if decide (exn_kind e = k) then h else Raise e
  end.

(** [needle in hay] on [str]. *)
Fixpoint str_in (needle hay : string) : bool :=
  if String.prefix needle hay then true
  else match hay with
       | EmptyString => false
       | String _ hay' => str_in needle hay'
       end.

(** [s.replace(old, new)] for a non-empty [old]: occurrences are found
    from the left and do not overlap.  [skip] counts the characters of a
    match that are still to be dropped. *)
Fixpoint replace_from (old new s : string) (skip : nat) : string :=
  match s with
  | EmptyString => EmptyString
  | String c s' =>
      match skip with
      | S k => replace_from old new s' k
      | O => if String.prefix old s
             then new +:+ replace_from old new s' (String.length old - 1)
             else String c (replace_from old new s' 0)
      end
  end.

Definition str_replace (s old new : string) : string := replace_from old new s 0.

(** [s.split(" ")]: the pieces between single spaces; never empty. *)
Fixpoint split_space (s : string) : list string :=
  match s with
  | EmptyString => [EmptyString]
  | String c s' =>
      if Ascii.eqb c " "%char then EmptyString :: split_space s'
      else match split_space s' with
           | [] => [String c EmptyString]
           | w :: ws => String c w :: ws
           end
  end.

(** [l[0]] *)
Definition first {A} (l : list A) : result A :=
  match l with
  | [] => lib_raise IndexError "list index out of range"
  | a :: _ => Ok a
  end.

(** [l[i]] for [i >= 0] *)
Definition getitem {A} (l : list A) (i : nat) : result A :=
  match l !! i with
  | Some a => Ok a
  | None => lib_raise IndexError "list index out of range"
  end.

(** [l.remove(x)]: the first occurrence goes, [ValueError] when there is none. *)
Fixpoint list_remove (x : string) (l : list string) : result (list string) :=
  match l with
  | [] => lib_raise ValueError "list.remove(x): x not in list"
  | y :: l' => if decide (y = x) then Ok l' else (y ::.) <$> list_remove x l'
  end.

(** [l.index(x)] *)
Fixpoint list_index_from {A} (eqb : A → A → bool) (x : A) (l : list A) (i : nat) : result nat :=
  match l with
  | [] => lib_raise ValueError "x is not in list"
  | y :: l' => if eqb y x then Ok i else list_index_from eqb x l' (S i)
  end.

(** [enumerate(l)] *)
Definition enumerate {A} (l : list A) : list (nat * A) := imap (λ i a, (i, a)) l.

(** Order of [str] under [<=]: by code point, the shorter first on a tie. *)
Definition str_leb (a b : string) : bool :=
  match String.compare a b with Gt => false | _ => true end.

(** A stable sort by insertion, standing for [sorted]. *)
Fixpoint insert_sorted {A} (leb : A → A → bool) (x : A) (l : list A) : list A :=
  match l with
  | [] => [x]
  | y :: l' => if leb x y then x :: l else y :: insert_sorted leb x l'
  end.

Definition sorted {A} (leb : A → A → bool) (l : list A) : list A :=
  foldr (insert_sorted leb) [] l.

(** Code that runs on a mutable state [S]: it returns or raises, and leaves
    a state behind either way. *)
Definition Stateful (S A : Type) : Type := S → result A * S.

#[export] Instance stateful_ret {S} : MRet (Stateful S) := λ A a s, (Ok a, s).
#[export] Instance stateful_bind {S} : MBind (Stateful S) := λ A B f m s,
  match m s with
  | (Ok a, s') => f a s'
  | (Raise e, s') => (Raise e, s')
  end.

(** A computation that does not touch the state. *)
Definition lift {S A} (r : result A) : Stateful S A := λ s, (r, s).

(** The code only reads its state: it leaves behind the state it found. *)
Definition readonly {S A} (m : Stateful S A) : Prop := ∀ s, (m s).2 = s.

(** Whatever [r] raises was built by the interpreter or a library, not by a
    [raise] of the package. *)
Definition lib_only {A} (r : result A) : Prop :=
  ∀ e, r = Raise e → exn_origin e = Lib.

Definition raises_lib_only {S A} (m : Stateful S A) : Prop :=
  ∀ s, lib_only (m s).1.

End Py.
Export Py.

(** ** The dataframe library, as far as the two files use it *)

Module Pandas.

(** A cell, as [read_csv] types it. *)
Inductive value :=
| VStr (s : string)
| VInt (n : Z)
| VFloat (x : float).

Definition NaN : value := VFloat nan.

Definition isna (v : value) : bool :=
  match v with VFloat x => is_nan x | _ => false end.

(** [a == b] on two cells.  A column has one dtype, so an [int] never meets
    a [float] here. *)
Definition value_eqb (a b : value) : bool :=
  match a, b with
  | VStr s, VStr t => String.eqb s t
  | VInt m, VInt n => Z.eqb m n
  | VFloat x, VFloat y => PrimFloat.eqb x y
  | _, _ => false
  end.

(** Equality of group keys and of [unique]: as [==], and NaN is one key. *)
Definition key_eqb (a b : value) : bool := value_eqb a b || (isna a && isna b).

(** Order of sorted keys: numbers before strings, each kind by its own order. *)
Definition value_leb (a b : value) : bool :=
  match a, b with
  | VInt m, VInt n => Z.leb m n
  | VFloat x, VFloat y => PrimFloat.leb x y
  | VStr s, VStr t => str_leb s t
  | VStr _, _ => false
  | _, VStr _ => true
  | VInt _, VFloat _ => true
  | VFloat _, VInt _ => false
  end.

(** First occurrences, in order of appearance. *)
Fixpoint nub (l : list value) : list value :=
  match l with
  | [] => []
  | x :: l' => x :: filter (λ y, negb (key_eqb y x)) (nub l')
  end.

(** A row is a total map from column labels to cells; [columns] says which
    labels the frame has.  [L] is the type of the row labels. *)
Record DataFrame (L : Type) := mkDataFrame {
  columns : list string;
  rows : list (L * (string → value))
}.
Arguments mkDataFrame {L} columns rows.
Arguments columns {L} d.
Arguments rows {L} d.

(** A column or a row taken out of a frame: labels and values. *)
Abbreviation Series L := (list (L * value)).

Section Frames.
Context {L : Type}.

Definition index (df : DataFrame L) : list L := (rows df).*1.

Definition values (s : Series L) : list value := s.*2.

(** [df[c]] *)
Definition df_getitem (df : DataFrame L) (c : string) : result (Series L) :=
  if decide (c ∈ columns df)
  then Ok ((λ r : L * (string → value), (r.1, r.2 c)) <$> rows df)
  else lib_raise KeyError c.

(** [df[mask]] for a boolean mask aligned with the rows. *)
Definition df_mask (df : DataFrame L) (mask : list bool) : DataFrame L :=
  mkDataFrame (columns df) ((filter (λ rb, Is_true rb.2) (zip (rows df) mask)).*1).

(** [df.filter(like=s, axis=1)] *)
Definition filter_like_columns (like : string) (df : DataFrame L) : DataFrame L :=
  mkDataFrame (filter (λ c, Is_true (str_in like c)) (columns df)) (rows df).

(** [df.filter(like=s, axis=0)]; [to_str] is [str] on a row label. *)
Definition filter_like_index (to_str : L → string) (like : string)
    (df : DataFrame L) : DataFrame L :=
  mkDataFrame (columns df)
    (filter (λ r, Is_true (str_in like (to_str r.1))) (rows df)).

(** [df.filter(items=l)]: the labels of [l] that the frame has, in the
    order of [l]. *)
Definition filter_items (items : list string) (df : DataFrame L) : DataFrame L :=
  mkDataFrame (filter (λ c, c ∈ columns df) items) (rows df).

(** [df.sort_index(axis=1)] *)
Definition sort_index_columns (df : DataFrame L) : DataFrame L :=
  mkDataFrame (sorted str_leb (columns df)) (rows df).

(** [df.replace(np.nan, x)] *)
Definition replace_nan (x : value) (df : DataFrame L) : DataFrame L :=
  mkDataFrame (columns df)
    ((λ r : L * (string → value), (r.1, λ c, if isna (r.2 c) then x else r.2 c)) <$> rows df).

(** [df.drop(columns=cs)] *)
Definition drop_columns (cs : list string) (df : DataFrame L) : result (DataFrame L) :=
  match filter (λ c, c ∉ columns df) cs with
  | [] => Ok (mkDataFrame (filter (λ c, c ∉ cs) (columns df)) (rows df))
  | c :: _ => lib_raise KeyError c
  end.

(** [df.to_numpy()] *)
Definition to_numpy (df : DataFrame L) : list (list value) :=
  (λ r : L * (string → value), r.2 <$> columns df) <$> rows df.

(** [df[c] = vs]: an existing column is overwritten in place in the
    column order, a new one is appended. *)
Definition df_setitem (df : DataFrame L) (c : string) (vs : list value) : DataFrame L :=
  mkDataFrame
    (if decide (c ∈ columns df) then columns df else columns df ++ [c])
    ((λ rv : (L * (string → value)) * value,
        (rv.1.1, λ c', if decide (c' = c) then rv.2 else rv.1.2 c')) <$> zip (rows df) vs).

End Frames.

Section Labels.
Context {L : Type} (label_eqb : L → L → bool).

(** [df.loc[ys, xs]]: every row that carries a label of [ys], label by
    label; a label that the frame does not have is a [KeyError]. *)
Definition loc (df : DataFrame L) (ys : list L) (xs : list string)
    (show : L → string) : result (DataFrame L) :=
  match filter (λ y, ¬ Is_true (existsb (label_eqb y) (index df))) ys with
  | y :: _ => lib_raise KeyError (show y)
  | [] =>
      match filter (λ x, x ∉ columns df) xs with
      | x :: _ => lib_raise KeyError x
      | [] => Ok (mkDataFrame xs
                    (ys ≫= λ y, filter (λ r, Is_true (label_eqb r.1 y)) (rows df)))
      end
  end.

(** [df.at[y, x]] *)
Definition at_ (df : DataFrame L) (y : L) (x : string) (show : L → string) : result value :=
  if decide (x ∈ columns df) then
    match filter (λ r, Is_true (label_eqb r.1 y)) (rows df) with
    | r :: _ => Ok (r.2 x)
    | [] => lib_raise KeyError (show y)
    end
  else lib_raise KeyError x.

End Labels.

(** [s.unique()] *)
Definition unique {L} (s : Series L) : list value := nub (values s).

(** [df.groupby(key)]: the keys sorted, NaN keys dropped, and under every
    key the rows that carry it, in their order in the frame. *)
Record GroupBy (L : Type) := mkGroupBy {
  gb_key : string;
  gb_columns : list string;
  groups : list (value * DataFrame L)
}.
Arguments mkGroupBy {L} gb_key gb_columns groups.
Arguments gb_key {L} g.
Arguments gb_columns {L} g.
Arguments groups {L} g.

Definition group_keys (vs : list value) : list value :=
  sorted value_leb (filter (λ k, ¬ Is_true (isna k)) (nub vs)).

Definition groupby {L} (df : DataFrame L) (key : string) : result (GroupBy L) :=
  s ← df_getitem df key;
  Ok (mkGroupBy key (columns df)
        ((λ k, (k, mkDataFrame (columns df)
                     (filter (λ r, Is_true (key_eqb (r.2 key) k)) (rows df))))
           <$> group_keys (values s))).

(** [df.groupby(key).agg()] for a column-wise reduction [f]: one row per
    group, labelled by its key; the key is no longer a column. *)
Definition groupby_agg {L} (f : list value → value) (gb : GroupBy L) : DataFrame value :=
  mkDataFrame
    (filter (λ c, c ≠ gb_key gb) (gb_columns gb))
    ((λ g : value * DataFrame L,
        (g.1, λ c, f ((λ r : L * (string → value), r.2 c) <$> rows g.2)))
       <$> groups gb).

(** [pd.concat(frames, names=[...], sort=False)] for a dict of frames: the
    rows of each frame under its dict key, in dict order. *)
Definition concat {L} (frames : list (string * DataFrame L)) : DataFrame (string * L) :=
  mkDataFrame
    (remove_dups (frames ≫= λ f, columns f.2))
    (frames ≫= λ f, (λ r : L * (string → value), ((f.1, r.1), r.2)) <$> rows f.2).

(** [s[name]] on a series whose labels are pairs: the part under [name]. *)
Definition xs {L} (s : Series (string * L)) (name : string) : result (Series L) :=
  match filter (λ e : (string * L) * value, e.1.1 = name) s with
  | [] => lib_raise KeyError name
  | part => Ok ((λ e : (string * L) * value, (e.1.2, e.2)) <$> part)
  end.

(** A parsed CSV file: the header line and the records. *)
Record Csv := mkCsv { header : list string; records : list (list value) }.

Fixpoint position (c : string) (l : list string) : option nat :=
  match l with
  | [] => None
  | x :: l' => if decide (x = c) then Some 0 else S <$> position c l'
  end.

(** The cells of a record by column label; a short record is padded with NaN. *)
Definition row_of (hdr : list string) (rec : list value) : string → value :=
  λ c, match position c hdr with
       | Some j => default NaN (rec !! j)
       | None => NaN
       end.

(** [pd.read_csv(path)]: the rows are numbered from 0. *)
Definition frame_of_csv (f : Csv) : DataFrame Z :=
  mkDataFrame (header f)
    (imap (λ i rec, (Z.of_nat i, row_of (header f) rec)) (records f)).

(** [pd.read_csv(path, index_col=0)]: the first field labels the row. *)
Definition frame_of_csv_index0 (f : Csv) : DataFrame value :=
  mkDataFrame (tail (header f))
    ((λ rec, (default NaN (head rec), row_of (header f) rec)) <$> records f).

End Pandas.
Export Pandas.

(** ** What the two files call and do not define *)

(** The interpreter and the dataframe library: formatting and parsing of
    numbers, and the numeric reductions over a column. *)
Class Library := {
  (** [str(x)] for a [float] *)
  float_repr : float → string;
  (** [int(s)] for a [str]; [None] where Python raises [ValueError] *)
  int_of_str : string → option Z;
  (** [Series.max()] *)
  series_max : list value → value;
  (** [GroupBy.mean()], [.quantile(q)], [.max()], [.min()] on the cells of
      one column of one group *)
  group_mean : list value → value;
  group_quantile : float → list value → value;
  group_max : list value → value;
  group_min : list value → value;
  (** [DataFrame.sort_values(by=..., ascending=False)], by the key of a row *)
  sort_values_desc : ∀ A : Type, (A → value) → list A → list A
}.

(** The dashboard framework and the package's own helper modules
    ([_abbreviations.reservoir_simulation], [_utils.simulation_timeseries],
    [utils.colors]). *)
Class Framework := {
  (** [WebvizPluginABC.uuid]: the plugin's uuid and the element name *)
  element_id : string → string → string;
  (** [hex_to_rgb(color, opacity)] *)
  hex_to_rgb : string → float → string;
  (** [historical_vector(vector, smry_meta)]; [None] when there is none *)
  historical_vector : string → option (DataFrame Z) → option string;
  (** [get_simulation_line_shape(line_shape_fallback, vector, smry_meta)] *)
  get_simulation_line_shape : string → string → option (DataFrame Z) → string;
  (** [set_simulation_line_shape_fallback(line_shape_fallback)] *)
  set_simulation_line_shape_fallback : string → string
}.

Section PyStr.
Context `{Library}.

(** [str(v)] *)
Definition py_str (v : value) : string :=
  match v with
  | VStr s => s
  | VInt n => pretty n
  | VFloat x => float_repr x
  end.

(** [int(s)] *)
Definition py_int (s : string) : result Z :=
  match int_of_str s with
  | Some n => Ok n
  | None => lib_raise ValueError ("invalid literal for int() with base 10: " +:+ s)
  end.

(** [v.split(" ")]: only a [str] has the method. *)
Definition value_split (v : value) : result (list string) :=
  match v with
  | VStr s => Ok (split_space s)
  | _ => lib_raise AttributeError "split"
  end.

End PyStr.

(** [for b in l: s = f(s, b)] *)
Fixpoint for_each {M : Type → Type} `{!MBind M, !MRet M} {S B}
    (f : S → B → M S) (s : S) (l : list B) : M S :=
  match l with
  | [] => mret s
  | b :: l' => s' ← f s b; for_each f s' l'
  end.

(** The input directory: the parsed CSV file under each path. *)
Abbreviation Files := (gmap string Csv).

Definition open_csv (fs : Files) (path : string) : result Csv :=
  match fs !! path with
  | Some f => Ok f
  | None => lib_raise FileNotFoundError path
  end.

(** [pd.read_csv(path)] *)
Definition read_csv (fs : Files) (path : string) : result (DataFrame Z) :=
  frame_of_csv <$> open_csv fs path.

(** [pd.read_csv(path, index_col=0)] *)
Definition read_csv_index0 (fs : Files) (path : string) : result (DataFrame value) :=
  frame_of_csv_index0 <$> open_csv fs path.

(** ** [_ahm_analysis_plugin.py] *)

Module Ahm.

(** *** What the callbacks return *)

Record Heatmap := mkHeatmap {
  hm_x : list string;
  hm_y : list value;
  hm_z : list (list value);
  hm_colorscale : string;
  hm_zmin : Z;
  hm_zmax : Z;
  hm_hoverinfo : string;
  hm_text : list (list string);
  hm_xaxis : option string
}.

Record Histogram := mkHistogram {
  hist_x : list value;
  hist_name : string;
  hist_nbinsx : Z
}.

(** The arguments of [px.scatter], the columns it is pointed at read out. *)
Record Scatter := mkScatter {
  sc_x : list value;
  sc_y : list value;
  sc_color : list value;
  sc_range_color : value * value;
  sc_title : string;
  sc_hover_data : list (string * list value)
}.

Inductive Figure :=
| HeatmapFigure (data : list Heatmap) (layout_title : string)
| ScatterFigure (fig : Scatter)
| HistogramFigure (traces : list Histogram) (layout_title : string) (xaxis_title : string).

(** One record of the table of KS values. *)
Record KsRow := mkKsRow {
  Ks_value : value;
  Obs : string;
  Param : list value;
  Active_Obs : Z;
  Avg_Obs_misfit : value
}.

Record ClickPoint := mkClickPoint { pt_x : string; pt_y : value }.

Inductive Component :=
| EmptyStr
| Graph (id : string) (figure : Figure) (clickData : option (list ClickPoint))
| DataTable (columns : list string) (data : list KsRow) (page_size : Z).

(** *** Module-level functions *)

Section Functions.
Context `{Library}.

(** [set_inputfilter] *)
Definition set_inputfilter (input_filter : string) : string :=
  if decide (input_filter = "") then "_" else input_filter.

(** [get_listtoplot] *)
Definition get_listtoplot (joint_ks : DataFrame value) (choiceplot : string)
    : result (list string) :=
  let list_ok := columns (filter_like_columns "All_obs" joint_ks) in
  let listtoplot := filter (λ ele, ele ∉ list_ok) (columns joint_ks) in
  if decide (choiceplot = "ALL") then
    list_ok ← list_remove "All_obs" list_ok;
    Ok list_ok
  else Ok listtoplot.

(** [active_info.at["ratio", obs]] *)
Definition ratio_of (active_info : DataFrame value) (obs : string) : result value :=
  at_ value_eqb active_info (VStr "ratio") obs py_str.

(** An observation without active data: its ratio reads ["0 ..."]. *)
Definition no_active (active_info : DataFrame value) (obs : string) : Prop :=
  ∃ v ws, ratio_of active_info obs = Ok v ∧ value_split v = Ok ("0" :: ws).

#[export] Instance no_active_dec active_info obs : Decision (no_active active_info obs).
Proof.
  unfold no_active.
  destruct (ratio_of active_info obs) as [v|e]; [|right; by intros (? & ? & ? & ?)].
  destruct (value_split v) as [[|w ws]|e] eqn:E.
  - right. intros (? & ? & [= <-] & ?). congruence.
  - destruct (decide (w = "0")) as [->|]; [left; eauto|right].
    intros (? & ? & [= <-] & ?). congruence.
  - right. intros (? & ? & [= <-] & ?). congruence.
Defined.

(** [zz[yid][xid]], where the array has such a cell. *)
Definition cell_at (zz : list (list value)) (yid xid : nat) : option value :=
  row ← zz !! yid; row !! xid.

(** [zz_data[yid][xid] = v] on a two-dimensional array *)
Definition array_set (zz : list (list value)) (yid xid : nat) (v : value)
    : result (list (list value)) :=
  match zz !! yid with
  | Some row =>
      if decide (xid < length row) then Ok (<[yid := <[xid := v]> row]> zz)
      else lib_raise IndexError "index out of bounds"
  | None => lib_raise IndexError "index out of bounds"
  end.

(** [get_zzdata].  [None] stored into an array of floats reads back as NaN. *)
Definition get_zzdata (joint_ks_sorted : DataFrame value) (yy_data : list value)
    (xx_data : list string) (active_info : DataFrame value)
    : result (list (list value)) :=
  zz_data ← to_numpy <$> loc value_eqb joint_ks_sorted yy_data xx_data py_str;
  for_each (λ zz_data yid,
    for_each (λ zz_data (ix : nat * string),
      let '(xid, xxd) := ix in
      active_obs_info ← ratio_of active_info xxd ≫= value_split;
      a0 ← first active_obs_info;
      if decide (a0 = "0") then array_set zz_data yid xid NaN
      else Ok zz_data) zz_data (enumerate xx_data))
    zz_data (seq 0 (length yy_data)).

(** [hovertext_list] *)
Definition hovertext_list (xx_data : list string) (yy_data : list value)
    (zz_data : list (list value)) (active_info : DataFrame value)
    : result (list (list string)) :=
  mapM (λ py : nat * value,
    let '(parami, paramy) := py in
    mapM (λ ox : nat * string,
      let '(obsi, obsx) := ox in
      ratio ← ratio_of active_info obsx;
      zrow ← getitem zz_data parami;
      z ← getitem zrow obsi;
      Ok ("Obs (" +:+ py_str ratio +:+ "): " +:+ obsx +:+ "<br />Param: "
            +:+ py_str paramy +:+ "<br />Ks: " +:+ py_str z))
      (enumerate xx_data))
    (enumerate yy_data).

(** [joint_ks[joint_ks[keyss] == indk].index.tolist()] *)
Definition labels_where (joint_ks : DataFrame value) (keyss : string) (indk : value)
    : result (list value) :=
  col ← df_getitem joint_ks keyss;
  Ok (index (df_mask joint_ks ((λ v, value_eqb v indk) <$> values col))).

(** [get_ks_filter]: the rows appended to the frame, in order. *)
Definition get_ks_filter (listtoplot : list string)
    (active_info misfit_info joint_ks : DataFrame value) : result (list KsRow) :=
  for_each (λ ks_filter keyss,
    col ← df_getitem joint_ks keyss;
    for_each (λ ks_filter indk,
      active_obs_info ← ratio_of active_info keyss ≫= value_split;
      index_label ← labels_where joint_ks keyss indk;
      a0 ← first active_obs_info;
      n ← py_int a0;
      misfit ← at_ value_eqb misfit_info (VStr "misfit") keyss py_str;
      Ok (ks_filter ++ [mkKsRow indk keyss index_label n misfit]))
      ks_filter (values col))
    [] listtoplot.

(** The observation list that [_generatetable] computes inline. *)
Definition generatetable_listtoplot (joint_ks : DataFrame value) (choiceplot : string)
    : list string :=
  let list_ok := columns (filter_like_columns "All_obs" joint_ks) in
  let listtoplot := filter (λ ele, ele ∉ list_ok) (columns joint_ks) in
  if decide (choiceplot = "ALL") then list_ok else listtoplot.

End Functions.

(** *** The plugin object *)

(** A method of the plugin: it reads and may write [self.__dict__], the
    attributes of the object (here all of them [str]), and it may raise. *)
Abbreviation Method := (Stateful (gmap string string)).

(** [self.name] *)
Definition getattr (name : string) : Method string := λ self,
  (match self !! name with
   | Some v => Ok v
   | None => lib_raise AttributeError name
   end, self).

(** [self.name = v] *)
Definition setattr (name v : string) : Method unit := λ self,
  (Ok tt, <[name := v]> self).

(** [s[-1]] *)
Fixpoint str_last (s : string) : result ascii :=
  match s with
  | EmptyString => lib_raise IndexError "string index out of range"
  | String c EmptyString => Ok c
  | String _ s' => str_last s'
  end.

Definition default_title : string := "Data analytics: what affects what".

Section Class.
Context `{Library} `{Framework}.

(** [set_callbacks] hands the three closures to the application object and
    assigns nothing on [self]. *)
Definition set_callbacks : Method unit := mret tt.

(** [__init__]; [uuid4] is the identifier that [super().__init__()] draws. *)
Definition __init__ (uuid4 : string) (input_dir : string) (title : option string)
    : Method unit :=
  setattr "_plugin_uuid" uuid4;;
  setattr "title" (default default_title title);;
  c ← lift (str_last input_dir);
  let input_dir := if decide (c ≠ "/"%char) then input_dir +:+ "/" else input_dir in
  setattr "input_dir" input_dir;;
  set_callbacks.

(** [self.uuid(element)] *)
Definition self_uuid (element : string) : Method string :=
  u ← getattr "_plugin_uuid";
  mret (element_id u element).

Definition ks_layout_title : string :=
  "KS Matrix (parameters degree of change prior to posterior)".

(** [_update_graph] *)
Definition _update_graph (fs : Files)
    (input_filter_obs input_filter_param choiceplot : string) : Method Component :=
  inputdata ← getattr "input_dir";
  if decide (inputdata = "") then mret EmptyStr else
  active_info ← lift (read_csv_index0 fs (inputdata +:+ "active_obs_info.csv"));
  joint_ks ← lift (replace_nan (VFloat 0) <$> read_csv_index0 fs (inputdata +:+ "ks.csv"));
  let input_filter_obs := set_inputfilter input_filter_obs in
  let input_filter_param := set_inputfilter input_filter_param in
  listtoplot ← lift (get_listtoplot joint_ks choiceplot);
  let joint_ks_sorted := sort_index_columns (filter_items listtoplot joint_ks) in
  let xx_data := columns (filter_like_columns input_filter_obs joint_ks_sorted) in
  let yy_data := index (filter_like_index py_str input_filter_param joint_ks_sorted) in
  zz_data ← lift (get_zzdata joint_ks_sorted yy_data xx_data active_info);
  let yall_obs_data :=
    index (filter_like_index py_str input_filter_param joint_ks_sorted) in
  zall_obs_data ←
    lift (to_numpy <$> loc value_eqb joint_ks yall_obs_data ["All_obs"] py_str);
  graph_id ← self_uuid "heatmap_id";
  text ← lift (hovertext_list xx_data yy_data zz_data active_info);
  text_all ← lift (hovertext_list ["All_obs"] yall_obs_data zall_obs_data active_info);
  x0 ← lift (first xx_data);
  y0 ← lift (first yy_data);
  mret (Graph graph_id
          (HeatmapFigure
             [ mkHeatmap xx_data yy_data zz_data "YlGnBu" 0 1 "text" text None;
               mkHeatmap ["All_obs"] yall_obs_data zall_obs_data "YlGnBu" 0 1 "text"
                 text_all (Some "x2") ]
             ks_layout_title)
          (Some [mkClickPoint x0 y0])).

(** A column that [px.scatter] is pointed at by name. *)
Definition px_column (df : DataFrame Z) (name : string) : result (list value) :=
  match df_getitem df name with
  | Ok s => Ok (values s)
  | Raise _ => lib_raise ValueError name
  end.

(** [needle in v] where [v] should be a [str] *)
Definition value_contains (needle : string) (v : value) : result bool :=
  match v with
  | VStr s => Ok (str_in needle s)
  | _ => lib_raise TypeError "argument is not iterable"
  end.

(** [_display_click_data]; [celldata] is [celldata["points"]]. *)
Definition _display_click_data (fs : Files) (celldata : list ClickPoint)
    (hist_display : string) : Method Component :=
  inputdata ← getattr "input_dir";
  if decide (inputdata = "") then mret EmptyStr else
  pt ← lift (first celldata);
  let obs := pt_x pt in
  active_info ← lift (read_csv_index0 fs (inputdata +:+ "active_obs_info.csv"));
  is_field ← lift (value_contains "FIELD" (pt_y pt));
  let param := py_str (pt_y pt) in
  if is_field : bool then
    let fieldparam := str_replace param "FIELD_" "" in
    let inputdata :=
      str_replace inputdata "scalar_" "field_" +:+ "/delta_field" +:+ fieldparam +:+ ".csv" in
    mygrid_ok_short ← lift (read_csv fs inputdata);
    let maxinput :=
      (λ r : Z * (string → value),
         series_max (r.2 <$> columns (filter_like_columns "Mean_" mygrid_ok_short)))
        <$> rows mygrid_ok_short in
    let deltadata := "Mean_D_" +:+ obs in
    x ← lift (px_column mygrid_ok_short "X_UTME");
    y ← lift (px_column mygrid_ok_short "Y_UTMN");
    color ← lift (px_column mygrid_ok_short deltadata);
    hover ← lift (mapM (λ c, (λ vs, (c, vs)) <$> px_column mygrid_ok_short c)
                    ["X_UTME"; "Y_UTMN"; "Z_TVDSS"; "IX"; "JY"; deltadata]);
    mret (Graph "2Dmap_avgdelta"
            (ScatterFigure
               (mkScatter x y color (VInt 0, series_max maxinput)
                  ("Mean_delta_posterior-prior " +:+ obs +:+ " ," +:+ param) hover))
            None)
  else
    post_df ← lift (read_csv fs (inputdata +:+ obs +:+ ".csv"));
    prior_df ← lift (read_csv fs (inputdata +:+ "prior.csv"));
    let param :=
      if decide (hist_display = "TRANS") then
        match filter (λ ele, Is_true (str_in ("_" +:+ param) ele)) (columns prior_df) with
        | [] => param
        | p :: _ => p
        end
      else param in
    prior_x ← lift (df_getitem prior_df param);
    post_x ← lift (df_getitem post_df param);
    ratio ← lift (ratio_of active_info obs);
    mret (Graph "lineplots"
            (HistogramFigure
               [ mkHistogram (values prior_x) "prior" 10;
                 mkHistogram (values post_x) "update" 10 ]
               ("Parameter distribution for observation " +:+ obs +:+ " ("
                  +:+ py_str ratio +:+ ")")
               param)
            None).

(** [_generatetable] *)
Definition _generatetable (fs : Files) (choiceplot : string) (max_rows : Z)
    : Method Component :=
  inputdata ← getattr "input_dir";
  if decide (inputdata = "") then mret EmptyStr else
  misfit_info ← lift (read_csv_index0 fs (inputdata +:+ "misfit_obs_info.csv"));
  active_info ← lift (read_csv_index0 fs (inputdata +:+ "active_obs_info.csv"));
  joint_ks ← lift (replace_nan (VFloat 0) <$> read_csv_index0 fs (inputdata +:+ "ks.csv"));
  let listtoplot := generatetable_listtoplot joint_ks choiceplot in
  ks_filter ← lift (get_ks_filter listtoplot active_info misfit_info joint_ks);
  let ks_filter_ok := sort_values_desc KsRow Ks_value ks_filter in
  mret (DataTable ["Ks_value"; "Obs"; "Param"; "Active Obs"; "Avg Obs misfit"]
          ks_filter_ok max_rows).

(** The dashboard runs the callbacks one at a time on the one plugin
    object: an invocation names the callback and carries its inputs. *)
Inductive Invocation :=
| UpdateGraph (input_filter_obs input_filter_param choiceplot : string)
| DisplayClickData (celldata : list ClickPoint) (hist_display : string)
| GenerateTable (choiceplot : string) (max_rows : Z).

Definition invoke (fs : Files) (inv : Invocation) : Method Component :=
  match inv with
  | UpdateGraph input_filter_obs input_filter_param choiceplot =>
      _update_graph fs input_filter_obs input_filter_param choiceplot
  | DisplayClickData celldata hist_display =>
      _display_click_data fs celldata hist_display
  | GenerateTable choiceplot max_rows => _generatetable fs choiceplot max_rows
  end.

(** The plugin object after a series of invocations, whatever they
    returned or raised. *)
Definition invoke_all (fs : Files) (invs : list Invocation)
    (self : gmap string string) : gmap string string :=
  foldl (λ self inv, (invoke fs inv self).2) self invs.

End Class.

End Ahm.

(** ** [simulation_timeseries_model.py] *)

Module Timeseries.

(** *** Traces *)

(** What a trace carries under ["x"] and ["y"]: a [list], the [.values] of a
    series, or a series itself. *)
Inductive ArrayLike :=
| PyList (l : list value)
| NdArray (l : list value)
| PdSeries (s : Series Z).

Record Line := mkLine {
  line_width : option Z;
  line_color : option string;
  line_shape : string
}.

(** A trace dict; a key that a dict does not have is [None] here. *)
Record Trace := mkTrace {
  tr_name : value;
  tr_hovertext : option string;
  tr_hoverinfo : option string;
  tr_x : ArrayLike;
  tr_y : ArrayLike;
  tr_mode : option string;
  tr_fill : option string;
  tr_fillcolor : option string;
  tr_line : Line;
  tr_legendgroup : option value;
  tr_marker_color : option string;
  tr_customdata : option nat;
  tr_showlegend : bool
}.

(** *** The model object *)

(** [theme.plotly_theme], as far as [colors] reads it: the dict under
    ["layout"] and the list under ["colorway"], where present. *)
Record PlotlyTheme := mkPlotlyTheme {
  theme_layout : option (gmap string (list string));
  theme_colorway : option (list string)
}.

(** Dataframes are objects on the heap; a variable holds a reference. *)
Abbreviation Heap := (gmap nat (DataFrame Z)).

Record Model := mkModel {
  _dataframe : nat;
  theme : option PlotlyTheme;
  _metadata : option (DataFrame Z);
  line_shape_fallback : string
}.

(** The first argument of the trace methods: a [list] of names or one name. *)
Inductive Ensembles :=
| EnsList (l : list string)
| EnsStr (s : string).

Definition default_colorway : list string :=
  [ "#243746"; "#eb0036"; "#919ba2"; "#7d0023"; "#66737d"; "#4c9ba1";
    "#a44c65"; "#80b7bc"; "#ff1243"; "#919ba2"; "#be8091"; "#b2d4d7";
    "#ff597b"; "#bdc3c7"; "#d8b2bd"; "#ffe7d6"; "#d5eaf4"; "#ff88a1" ].

(** [d[k]] on a dict *)
Definition dict_getitem {V} (d : gmap string V) (k : string) : result V :=
  match d !! k with
  | Some v => Ok v
  | None => lib_raise KeyError k
  end.

(** The object behind a reference. *)
Definition deref (h : gmap nat (DataFrame Z)) (l : nat) : result (DataFrame Z) :=
  match h !! l with
  | Some df => Ok df
  | None => lib_raise AttributeError "dataframe"
  end.

Definition load (l : nat) : Stateful (gmap nat (DataFrame Z)) (DataFrame Z) :=
  λ h, (deref h l, h).

(** The object behind [l] is changed in place: every holder of the
    reference sees [df] from now on. *)
Definition store (l : nat) (df : DataFrame Z) : Stateful (gmap nat (DataFrame Z)) unit :=
  λ h, (Ok tt, <[l := df]> h).

(** *** The statistics, read off the rows *)

(** The rows of ensemble [e]. *)
Definition rows_of_ensemble (df : DataFrame Z) (e : string) : list (Z * (string → value)) :=
  filter (λ r, Is_true (value_eqb (r.2 "ENSEMBLE") (VStr e))) (rows df).

(** The dates at which ensemble [e] has rows: each once, in order. *)
Definition dates_of (df : DataFrame Z) (e : string) : list value :=
  group_keys ((λ r : Z * (string → value), r.2 "DATE") <$> rows_of_ensemble df e).

(** The cells of [vector] over the realizations of ensemble [e] at date [d]. *)
Definition cells_of (df : DataFrame Z) (e : string) (d : value) (vector : string)
    : list value :=
  (λ r : Z * (string → value), r.2 vector)
    <$> filter (λ r, Is_true (key_eqb (r.2 "DATE") d)) (rows_of_ensemble df e).

(** A statistic [f] of [vector] for ensemble [e], date by date. *)
Definition stat_line (f : list value → value) (df : DataFrame Z) (e vector : string)
    : Series value :=
  (λ d, (d, f (cells_of df e d vector))) <$> dates_of df e.

(** *** [@CACHE.memoize(timeout=CACHE.TIMEOUT)] *)

(** A call of one of the three decorated methods: the method and its
    arguments.  The decorator keys its cache on them. *)
Inductive Call :=
| StatisticTraces (ensembles : Ensembles) (vector : string)
| EnssetRealizationTraces (ensembles : Ensembles) (vector : string)
| RealizationTraces (ensemble : string) (vector : string) (real_filter : option (list Z)).

#[export] Instance Ensembles_eq_dec : EqDecision Ensembles.
Proof. solve_decision. Defined.
#[export] Instance Ensembles_countable : Countable Ensembles.
Proof.
  refine (inj_countable'
            (λ e, match e with EnsList l => inl l | EnsStr s => inr s end)
            (λ x, match x with inl l => EnsList l | inr s => EnsStr s end) _).
  by intros [].
Defined.
#[export] Instance Call_eq_dec : EqDecision Call.
Proof. solve_decision. Defined.
#[export] Instance Call_countable : Countable Call.
Proof.
  refine (inj_countable'
            (λ c, match c with
                  | StatisticTraces e v => inl (e, v)
                  | EnssetRealizationTraces e v => inr (inl (e, v))
                  | RealizationTraces e v r => inr (inr (e, v, r))
                  end)
            (λ x, match x with
                  | inl (e, v) => StatisticTraces e v
                  | inr (inl (e, v)) => EnssetRealizationTraces e v
                  | inr (inr (e, v, r)) => RealizationTraces e v r
                  end) _).
  by intros [].
Defined.

Section Memoize.
Context {K V : Type} `{Countable K}.

(** Modelled from the spec: the decorator [CACHE.memoize] of
    [webviz_config.common_cache], which the two files import and do not
    define; the spec calls it a transparent memoization decorator with no
    caching or eviction policy of the package's own.  The decorated
    function returns a result stored under the key of the call as it is;
    otherwise the function runs, and what it returns is stored.  A call
    that raises stores nothing. *)
Definition memoize (f : K → result V) (k : K) : Stateful (gmap K V) V := λ cache,
  match cache !! k with
  | Some v => (Ok v, cache)
  | None =>
      match f k with
      | Ok v => (Ok v, <[k := v]> cache)
      | Raise e => (Raise e, cache)
      end
  end.

(** Every stored result is what the function returns on that call. *)
Definition cache_consistent (f : K → result V) (cache : gmap K V) : Prop :=
  ∀ k v, cache !! k = Some v → f k = Ok v.

End Memoize.

Section Class.
Context `{Library} `{Framework}.

(** [s.astype(str)] *)
Definition astype_str (vs : list value) : list value := (λ v, VStr (py_str v)) <$> vs.

(** The cells of the DATE column after [astype(str)]. *)
Definition date_as_str (r : Z * (string → value)) : value := VStr (py_str (r.2 "DATE")).

(** [_prepare_and_validate_data] on the frame that [self._dataframe]
    refers to. *)
Definition _prepare_and_validate_data (dataframe : nat)
    : Stateful (gmap nat (DataFrame Z)) unit :=
  for_each (λ _ column,
    df ← load dataframe;
    if decide (column ∉ columns df)
    then lift (own_raise KeyError (column +:+ " column is missing from UNSMRY data"))
    else mret tt) tt ["ENSEMBLE"; "REAL"; "DATE"];;
  df ← load dataframe;
  s ← lift (df_getitem df "DATE");
  store dataframe (df_setitem df "DATE" (astype_str (values s))).

(** [__init__]; [dataframe] is the reference that the caller passes. *)
Definition __init__ (dataframe : nat) (theme : option PlotlyTheme)
    (metadata : option (DataFrame Z)) (line_shape_fallback : string)
    : Stateful (gmap nat (DataFrame Z)) Model :=
  _prepare_and_validate_data dataframe;;
  mret (mkModel dataframe theme metadata
          (set_simulation_line_shape_fallback line_shape_fallback)).

(** One trace of the fan. *)
Definition fan_trace (legend_group : value) (hovertext : string) (part : Series value)
    (fill : option string) (fillcolor : option string) (line : Line)
    (showlegend : bool) : Trace :=
  mkTrace legend_group (Some hovertext) None
    (PyList (part.*1)) (NdArray (values part))
    (Some "lines") fill fillcolor line (Some legend_group) None None showlegend.

(** [add_fanchart_traces]; [vector_stats] is labelled by statistic, then
    by date. *)
Definition add_fanchart_traces (vector_stats : Series (string * value))
    (color : string) (legend_group : value) (line_shape : string)
    : result (list Trace) :=
  let fill_color := hex_to_rgb color 0x1.3333333333333p-2%float in
  let line_color := hex_to_rgb color 1 in
  maximum ← xs vector_stats "maximum";
  p10 ← xs vector_stats "p10";
  mean ← xs vector_stats "mean";
  p90 ← xs vector_stats "p90";
  minimum ← xs vector_stats "minimum";
  Ok [ fan_trace legend_group "Maximum" maximum None None
         (mkLine (Some 0%Z) (Some line_color) line_shape) false;
       fan_trace legend_group "P10" p10 (Some "tonexty") (Some fill_color)
         (mkLine (Some 0%Z) (Some line_color) line_shape) false;
       fan_trace legend_group "Mean" mean (Some "tonexty") (Some fill_color)
         (mkLine None (Some line_color) line_shape) true;
       fan_trace legend_group "P90" p90 (Some "tonexty") (Some fill_color)
         (mkLine (Some 0%Z) (Some line_color) line_shape) false;
       fan_trace legend_group "Minimum" minimum (Some "tonexty") (Some fill_color)
         (mkLine (Some 0%Z) (Some line_color) line_shape) false ].

(** The dict [dframes] that [add_statistic_traces] builds from the rows of
    one ensemble grouped by date, in insertion order. *)
Definition statistics_of (dframe : GroupBy Z) : list (string * DataFrame value) :=
  [ ("mean", groupby_agg group_mean dframe);
    ("p10", groupby_agg (group_quantile (10 / 100)%float) dframe);
    ("p90", groupby_agg (group_quantile (90 / 100)%float) dframe);
    ("maximum", groupby_agg group_max dframe);
    ("minimum", groupby_agg group_min dframe) ].

(** The rows of one statistic in the concatenated frame, read at [vector]. *)
Definition stat_block (gb : GroupBy Z) (vector name : string) (f : list value → value)
    : Series (string * value) :=
  (λ g : value * DataFrame Z,
     ((name, g.1), f ((λ r : Z * (string → value), r.2 vector) <$> rows g.2)))
    <$> groups gb.

(** The five traces that [add_fanchart_traces] makes of the statistics of
    ensemble [e]. *)
Definition fan_of (df : DataFrame Z) (e vector color line_shape : string) : list Trace :=
  let fill_color := hex_to_rgb color 0x1.3333333333333p-2%float in
  let line_color := hex_to_rgb color 1 in
  [ fan_trace (VStr e) "Maximum" (stat_line group_max df e vector) None None
      (mkLine (Some 0%Z) (Some line_color) line_shape) false;
    fan_trace (VStr e) "P10" (stat_line (group_quantile (10 / 100)%float) df e vector)
      (Some "tonexty") (Some fill_color)
      (mkLine (Some 0%Z) (Some line_color) line_shape) false;
    fan_trace (VStr e) "Mean" (stat_line group_mean df e vector)
      (Some "tonexty") (Some fill_color)
      (mkLine None (Some line_color) line_shape) true;
    fan_trace (VStr e) "P90" (stat_line (group_quantile (90 / 100)%float) df e vector)
      (Some "tonexty") (Some fill_color)
      (mkLine (Some 0%Z) (Some line_color) line_shape) false;
    fan_trace (VStr e) "Minimum" (stat_line group_min df e vector)
      (Some "tonexty") (Some fill_color)
      (mkLine (Some 0%Z) (Some line_color) line_shape) false ].

Section Methods.
Variable h : gmap nat (DataFrame Z).
Variable self : Model.

(** [self.dataframe] *)
Definition dataframe : result (DataFrame Z) := deref h (_dataframe self).

(** [self.metadata] *)
Definition metadata : option (DataFrame Z) := _metadata self.

(** [colors] *)
Definition colors : result (list string) :=
  match theme self with
  | None => lib_raise AttributeError "plotly_theme"
  | Some plotly_theme =>
      try_except
        (match theme_layout plotly_theme with
         | Some layout => dict_getitem layout "colorway"
         | None => lib_raise KeyError "layout"
         end)
        KeyError
        (Ok (default default_colorway (theme_colorway plotly_theme)))
  end.

(** [ensembles] *)
Definition ensembles : result (list value) :=
  df ← dataframe;
  unique <$> df_getitem df "ENSEMBLE".

(** [ens_colors]: the dict as its items, in insertion order. *)
Definition ens_colors : result (list (value * string)) :=
  ens ← ensembles;
  mapM (λ e,
    cs ← colors;
    es ← ensembles;
    i ← list_index_from key_eqb e es 0;
    c ← getitem cs i;
    Ok (e, c)) ens.

(** [d.get(k, dflt)] on such a dict *)
Definition items_get (d : list (value * string)) (k : value) (dflt : string) : string :=
  match filter (λ kv : value * string, Is_true (key_eqb kv.1 k)) d with
  | kv :: _ => kv.2
  | [] => dflt
  end.

(** [self.ens_colors.get(ensemble, self.ens_colors[list(self.ens_colors.keys())[0]])] *)
Definition ens_color (ensemble : value) : result string :=
  d ← ens_colors;
  k0 ← first d.*1;
  Ok (items_get d ensemble (items_get d k0 "")).

(** [get_line_shape] *)
Definition get_line_shape (vector : string) : string :=
  get_simulation_line_shape (line_shape_fallback self) vector metadata.

(** [ensembles if isinstance(ensembles, list) else [ensembles]] *)
Definition as_list (ensembles : Ensembles) : list string :=
  match ensembles with
  | EnsList l => l
  | EnsStr s => [s]
  end.

(** [s.isin(names)] on one cell *)
Definition isin (names : list string) (v : value) : bool :=
  match v with
  | VStr s => bool_decide (s ∈ names)
  | _ => false
  end.

(** [self.dataframe[self.dataframe["ENSEMBLE"].isin(ensembles)]] *)
Definition ensemble_rows (ensembles : list string) : result (DataFrame Z) :=
  df ← dataframe;
  col ← df_getitem df "ENSEMBLE";
  Ok (df_mask df (isin ensembles <$> values col)).

(** [add_history_trace] *)
Definition add_history_trace (dframe : DataFrame Z) (vector : string) : result Trace :=
  real ← df_getitem dframe "REAL";
  real0 ← first (unique real);
  ens ← df_getitem dframe "ENSEMBLE";
  ens0 ← first (unique ens);
  let df := df_mask dframe
              (zip_with andb ((λ v, value_eqb v real0) <$> values real)
                             ((λ v, value_eqb v ens0) <$> values ens)) in
  x ← df_getitem df "DATE";
  y ← df_getitem df vector;
  Ok (mkTrace (VStr "History") (Some "History") (Some "y+x+text")
        (PdSeries x) (PdSeries y) None None None
        (mkLine None None (get_line_shape vector))
        None (Some "black") None true).

(** The tail shared by the three trace methods: the history line, if
    the frame has the vector's historical counterpart. *)
Definition with_history (dataframe : DataFrame Z) (vector : string)
    (traces : list Trace) : result (list Trace) :=
  match historical_vector vector metadata with
  | Some hvec =>
      if decide (hvec ∈ columns dataframe)
      then t ← add_history_trace dataframe hvec; Ok (traces ++ [t])
      else Ok traces
  | None => Ok traces
  end.

(** [add_statistic_traces], the function under the decorator *)
Definition add_statistic_traces (ensembles : Ensembles) (vector : string)
    : result (list Trace) :=
  let ensembles := as_list ensembles in
  dataframe ← ensemble_rows ensembles;
  by_ensemble ← groupby dataframe "ENSEMBLE";
  traces ← for_each (λ traces (g : value * DataFrame Z),
    let '(ensemble, ens_df) := g in
    dropped ← drop_columns ["ENSEMBLE"; "REAL"] ens_df;
    dframe ← groupby dropped "DATE";
    let dframes := statistics_of dframe in
    vector_stats ← df_getitem (concat dframes) vector;
    color ← ens_color ensemble;
    fan ← add_fanchart_traces vector_stats color ensemble (get_line_shape vector);
    Ok (traces ++ fan)) [] (groups by_ensemble);
  with_history dataframe vector traces.

(** One round of the loop of [add_statistic_traces], without the accumulator. *)
Definition ensemble_fan (vector : string) (g : value * DataFrame Z)
    : result (list Trace) :=
  dropped ← drop_columns ["ENSEMBLE"; "REAL"] g.2;
  dframe ← groupby dropped "DATE";
  vector_stats ← df_getitem (concat (statistics_of dframe)) vector;
  color ← ens_color g.1;
  add_fanchart_traces vector_stats color g.1 (get_line_shape vector).

(** [add_ensset_realization_traces], the function under the decorator *)
Definition add_ensset_realization_traces (ensembles : Ensembles) (vector : string)
    : result (list Trace) :=
  let ensembles := as_list ensembles in
  dataframe ← ensemble_rows ensembles;
  by_ensemble ← groupby dataframe "ENSEMBLE";
  traces ← for_each (λ traces (eg : nat * (value * DataFrame Z)),
    let '(ens_no, (ensemble, ens_df)) := eg in
    by_real ← groupby ens_df "REAL";
    for_each (λ traces (rg : nat * (value * DataFrame Z)),
      let '(real_no, (real, real_df)) := rg in
      x ← df_getitem real_df "DATE";
      y ← df_getitem real_df vector;
      color ← ens_color ensemble;
      Ok (traces ++
            [ mkTrace ensemble
                (Some ("Realization: " +:+ pretty real_no +:+ ", Ensemble: "
                         +:+ py_str ensemble))
                None (PyList (values x)) (PyList (values y)) None None None
                (mkLine None None (get_line_shape vector))
                (Some ensemble) (Some color) None (bool_decide (real_no = 0)) ]))
      traces (enumerate (groups by_real)))
    [] (enumerate (groups by_ensemble));
  with_history dataframe vector traces.

(** [s.isin(real_filter)] on one cell of the REAL column *)
Definition real_isin (real_filter : list Z) (v : value) : bool :=
  match v with
  | VInt n => bool_decide (n ∈ real_filter)
  | _ => false
  end.

(** [add_realization_traces], the function under the decorator;
    [real_filter] is given by the values of the series. *)
Definition add_realization_traces (ensemble : string) (vector : string)
    (real_filter : option (list Z)) : result (list Trace) :=
  df ← dataframe;
  col ← df_getitem df "ENSEMBLE";
  let dataframe := df_mask df ((λ v, value_eqb v (VStr ensemble)) <$> values col) in
  dataframe ←
    match real_filter with
    | Some real_filter =>
        real ← df_getitem dataframe "REAL";
        Ok (df_mask dataframe (real_isin real_filter <$> values real))
    | None => Ok dataframe
    end;
  by_real ← groupby dataframe "REAL";
  traces ← for_each (λ traces (rg : nat * (value * DataFrame Z)),
    let '(real_no, (real, real_df)) := rg in
    x ← df_getitem real_df "DATE";
    y ← df_getitem real_df vector;
    Ok (traces ++
          [ mkTrace (VStr ensemble) None (Some "skip")
              (PyList (values x)) (PyList (values y)) None None None
              (mkLine None None (get_line_shape vector))
              (Some (VStr ensemble)) (Some "red") (Some real_no)
              (bool_decide (real_no = 0)) ]))
    [] (enumerate (groups by_real));
  with_history dataframe vector traces.

(** The function that a call runs when the cache has nothing for it. *)
Definition undecorated (c : Call) : result (list Trace) :=
  match c with
  | StatisticTraces ensembles vector => add_statistic_traces ensembles vector
  | EnssetRealizationTraces ensembles vector =>
      add_ensset_realization_traces ensembles vector
  | RealizationTraces ensemble vector real_filter =>
      add_realization_traces ensemble vector real_filter
  end.

(** The three methods as callers see them, under the decorator.  The key
    of a call also carries the identity of [self]; the cache here is the
    part of [CACHE] under that identity. *)
Definition memoized (c : Call) : Stateful (gmap Call (list Trace)) (list Trace) :=
  memoize undecorated c.

End Methods.

(** What happens around a model over time: a decorated method is called,
    an entry of the cache times out, the cache is cleared, or whoever
    holds a reference to a frame changes the frame in place. *)
Inductive Event :=
| Invoked (c : Call)
| Expired (c : Call)
| CacheCleared
| FrameChanged (l : nat) (df : DataFrame Z).

Definition step (self : Model) (st : gmap nat (DataFrame Z) * gmap Call (list Trace))
    (ev : Event) : gmap nat (DataFrame Z) * gmap Call (list Trace) :=
  match ev with
  | Invoked c => (st.1, (memoized st.1 self c st.2).2)
  | Expired c => (st.1, delete c st.2)
  | CacheCleared => (st.1, ∅)
  | FrameChanged l df => ((store l df st.1).2, st.2)
  end.

(** The heap and the cache after a history of events; the cache is empty
    at the start. *)
Definition after (self : Model) (h : gmap nat (DataFrame Z)) (history : list Event)
    : gmap nat (DataFrame Z) * gmap Call (list Trace) :=
  foldl (step self) (h, ∅) history.

(** The event changes the frame that the model refers to. *)
Definition changes_frame_of (self : Model) (ev : Event) : Prop :=
  match ev with
  | FrameChanged l _ => l = _dataframe self
  | _ => False
  end.

#[export] Instance changes_frame_of_dec self ev : Decision (changes_frame_of self ev).
Proof. destruct ev; simpl; apply _. Defined.
End Class.

End Timeseries.

(** ** An instance of the interfaces, and a small data set *)

Module Sample.

Fixpoint float_of_nat (n : nat) : float :=
  match n with
  | O => 0%float
  | S k => (float_of_nat k + 1)%float
  end.

(** The numbers of a column, NaN skipped. *)
Definition floats_of (vs : list value) : list float :=
  omap (λ v, match v with
             | VFloat x => if is_nan x then None else Some x
             | _ => None
             end) vs.

Definition reduce (f : float → list float → float) (vs : list value) : value :=
  match floats_of vs with
  | [] => NaN
  | x :: l => VFloat (f x l)
  end.

Definition fmax (x : float) (l : list float) : float :=
  foldl (λ a b, if PrimFloat.ltb a b then b else a) x l.

Definition fmin (x : float) (l : list float) : float :=
  foldl (λ a b, if PrimFloat.ltb b a then b else a) x l.

Definition fmean (x : float) (l : list float) : float :=
  (foldl PrimFloat.add x l / float_of_nat (S (length l)))%float.

(** Linear interpolation between the two closest ranks. *)
Definition fquantile (q : float) (x : float) (l : list float) : float :=
  let sorted_l := sorted PrimFloat.leb (x :: l) in
  let pos := (q * float_of_nat (length l))%float in
  let lo := length (filter (λ i, Is_true (PrimFloat.leb (float_of_nat i) pos))
                      (seq 1 (length l))) in
  let a := default x (sorted_l !! lo) in
  let b := default a (sorted_l !! S lo) in
  (a + (pos - float_of_nat lo) * (b - a))%float.

Definition digit_of (c : ascii) : option Z :=
  let n := Z.of_nat (nat_of_ascii c) in
  if decide (48 ≤ n ≤ 57)%Z then Some (n - 48)%Z else None.

Fixpoint digits (acc : Z) (s : string) : option Z :=
  match s with
  | EmptyString => Some acc
  | String c s' => d ← digit_of c; digits (10 * acc + d)%Z s'
  end.

Definition parse_int (s : string) : option Z :=
  match s with
  | EmptyString => None
  | String "-" s' => if decide (s' = "") then None else Z.opp <$> digits 0 s'
  | _ => digits 0 s
  end.

#[export] Instance library : Library := {|
  float_repr x := if is_nan x then "nan" else "<float>";
  int_of_str := parse_int;
  series_max := reduce fmax;
  group_mean := reduce fmean;
  group_quantile q := reduce (fquantile q);
  group_max := reduce fmax;
  group_min := reduce fmin;
  sort_values_desc A key := sorted (λ a b, value_leb (key b) (key a))
|}.

#[export] Instance framework : Framework := {|
  element_id u element := element +:+ "-" +:+ u;
  hex_to_rgb color opacity := "rgba(" +:+ color +:+ ")";
  historical_vector vector smry_meta :=
    if decide (vector = "FOPT") then Some "FOPTH" else None;
  get_simulation_line_shape fallback vector smry_meta := fallback;
  set_simulation_line_shape_fallback fallback := fallback
|}.

(** The files of an input directory [share/scalar_case/]. *)
Definition ks_csv : Csv :=
  mkCsv [""; "All_obs"; "All_obs-WOPR"; "WOPR"; "FOPT_1"]
    [ [VStr "MULT_X"; VFloat 0.5; VFloat 0.25; VFloat 0.75; VFloat nan];
      [VStr "PORO"; VFloat 0.125; VFloat 0.5; VFloat 0.25; VFloat 1] ].

Definition active_obs_info_csv : Csv :=
  mkCsv [""; "All_obs"; "All_obs-WOPR"; "WOPR"; "FOPT_1"]
    [ [VStr "ratio"; VStr "3 active/4"; VStr "2 active/3"; VStr "0 active/1";
       VStr "2 active/3"] ].

Definition misfit_obs_info_csv : Csv :=
  mkCsv [""; "All_obs"; "All_obs-WOPR"; "WOPR"; "FOPT_1"]
    [ [VStr "misfit"; VFloat 2; VFloat 1.5; VFloat 4; VFloat 0.5] ].

Definition prior_csv : Csv :=
  mkCsv ["MULT_X"; "MULT_PORO"; "PORO"; "LOG10_MULT_X"]
    [ [VFloat 1; VFloat 3; VFloat 0.25; VFloat 0];
      [VFloat 2; VFloat 4; VFloat 0.5; VFloat 0.5] ].

Definition wopr_csv : Csv :=
  mkCsv ["MULT_X"; "MULT_PORO"; "PORO"; "LOG10_MULT_X"]
    [ [VFloat 1.5; VFloat 3.5; VFloat 0.25; VFloat 0.25];
      [VFloat 1.75; VFloat 3.75; VFloat 0.375; VFloat 0.5] ].

Definition delta_csv : Csv :=
  mkCsv ["X_UTME"; "Y_UTMN"; "Z_TVDSS"; "IX"; "JY"; "Mean_D_WOPR"; "Mean_D_FOPT_1"]
    [ [VFloat 1; VFloat 2; VFloat 3; VInt 1; VInt 1; VFloat 0.5; VFloat 0.25];
      [VFloat 4; VFloat 5; VFloat 6; VInt 2; VInt 1; VFloat 0.125; VFloat 2] ].

Definition files : gmap string Csv :=
  list_to_map
    [ ("share/scalar_case/ks.csv", ks_csv);
      ("share/scalar_case/active_obs_info.csv", active_obs_info_csv);
      ("share/scalar_case/misfit_obs_info.csv", misfit_obs_info_csv);
      ("share/scalar_case/prior.csv", prior_csv);
      ("share/scalar_case/WOPR.csv", wopr_csv);
      ("share/field_case//delta_fieldPERM.csv", delta_csv) ].

(** The same files after the delta file of the field directory was
    written anew. *)
Definition delta_csv_later : Csv :=
  mkCsv ["X_UTME"; "Y_UTMN"; "Z_TVDSS"; "IX"; "JY"; "Mean_D_WOPR"; "Mean_D_FOPT_1"]
    [ [VFloat 7; VFloat 8; VFloat 9; VInt 3; VInt 1; VFloat 0.75; VFloat 1] ].

Definition files_later : gmap string Csv :=
  <["share/field_case//delta_fieldPERM.csv" := delta_csv_later]> files.

(** The plugin after [__init__]. *)
Definition plugin : gmap string string :=
  (Ahm.__init__ "u1" "share/scalar_case" None ∅).2.

(** A frame of two ensembles, two realizations and two dates. *)
Definition summary_row (ens : string) (real : Z) (date : string) (fopt fopth : float)
    : string → value :=
  λ c, if decide (c = "ENSEMBLE") then VStr ens
       else if decide (c = "REAL") then VInt real
       else if decide (c = "DATE") then VStr date
       else if decide (c = "FOPT") then VFloat fopt
       else if decide (c = "FOPTH") then VFloat fopth
       else NaN.

Definition summary : DataFrame Z :=
  mkDataFrame ["ENSEMBLE"; "REAL"; "DATE"; "FOPT"; "FOPTH"]
    [ (0%Z, summary_row "iter-0" 0 "2000-01-01" 1 1.5);
      (1%Z, summary_row "iter-0" 0 "2001-01-01" 3 2.5);
      (2%Z, summary_row "iter-0" 1 "2000-01-01" 2 1.5);
      (3%Z, summary_row "iter-0" 1 "2001-01-01" 5 2.5);
      (4%Z, summary_row "iter-1" 0 "2000-01-01" 4 1.5);
      (5%Z, summary_row "iter-1" 0 "2001-01-01" 6 2.5) ].

(** The same rows in a frame that has no DATE column. *)
Definition undated : DataFrame Z :=
  mkDataFrame ["ENSEMBLE"; "REAL"; "FOPT"; "FOPTH"] (rows summary).

(** The frame after the rows of [iter-1] were dropped from it. *)
Definition iter0_only : DataFrame Z :=
  mkDataFrame (columns summary) (take 4 (rows summary)).

(** A frame whose dates were read as numbers. *)
Definition numbered_row (ens : string) (real date : Z) (fopt : float) : string → value :=
  λ c, if decide (c = "ENSEMBLE") then VStr ens
       else if decide (c = "REAL") then VInt real
       else if decide (c = "DATE") then VInt date
       else if decide (c = "FOPT") then VFloat fopt
       else NaN.

Definition numbered : DataFrame Z :=
  mkDataFrame ["ENSEMBLE"; "REAL"; "DATE"; "FOPT"]
    [ (0%Z, numbered_row "iter-0" 0 20000101 1);
      (1%Z, numbered_row "iter-0" 0 20010101 3) ].

Definition plotly_theme : Timeseries.PlotlyTheme :=
  Timeseries.mkPlotlyTheme (Some {[ "colorway" := ["#111111"; "#222222"] ]}) None.

Definition heap : gmap nat (DataFrame Z) := {[ 7 := summary ]}.

(** The model over [summary], and the heap after its [__init__]. *)
Definition model : Timeseries.Model :=
  Timeseries.mkModel 7 (Some plotly_theme) None "linear".

Definition heap' : gmap nat (DataFrame Z) :=
  (Timeseries.__init__ 7 (Some plotly_theme) None "linear" heap).2.

End Sample.

(** * Properties *)

(** ** Python and the dataframe library *)

Lemma result_bind_Ok {A B} (m : result A) (f : A → result B) (b : B) :
  m ≫= f = Ok b ↔ ∃ a, m = Ok a ∧ f a = Ok b.
Proof.
  destruct m as [a|e]; simpl; split.
  - eauto.
  - by intros (a' & [= ->] & ?).
  - done.
  - by intros (? & ? & ?).
Qed.

Lemma result_fmap_Ok {A B} (f : A → B) (m : result A) (b : B) :
  f <$> m = Ok b ↔ ∃ a, m = Ok a ∧ b = f a.
Proof.
  destruct m as [a|e]; simpl; split.
  - intros [= <-]. eauto.
  - by intros (a' & [= ->] & ->).
  - done.
  - by intros (? & ? & ?).
Qed.

Lemma str_in_nil_l (s : string) : str_in "" s = true.
Proof. by destruct s. Qed.

Lemma insert_sorted_perm {A} (leb : A → A → bool) (x : A) (l : list A) :
  insert_sorted leb x l ≡ₚ x :: l.
Proof.
  induction l as [|y l IH]; simpl; [done|].
  destruct (leb x y); [done|]. rewrite IH. apply Permutation_swap.
Qed.

Lemma sorted_perm {A} (leb : A → A → bool) (l : list A) : sorted leb l ≡ₚ l.
Proof.
  induction l as [|x l IH]; simpl; [done|].
  unfold sorted in IH. by rewrite insert_sorted_perm, IH.
Qed.

Lemma elem_of_sorted {A} (leb : A → A → bool) (l : list A) (x : A) :
  x ∈ sorted leb l ↔ x ∈ l.
Proof. by rewrite sorted_perm. Qed.

Lemma filter_all_iff {A} (P : A → Prop) `{!∀ x, Decision (P x)} (l : list A) :
  filter P l = l ↔ Forall P l.
Proof.
  split.
  - intros E. rewrite <- E. apply list.Forall_forall. intros x Hx.
    apply list_elem_of_filter in Hx. tauto.
  - induction 1 as [|x l Hx _ IH]; [done|].
    rewrite filter_cons, decide_True by done. by rewrite IH.
Qed.

Lemma list_remove_elem_of (x : string) (l : list string) :
  x ∈ l → ∃ l', list_remove x l = Ok l' ∧ length l = S (length l').
Proof.
  induction l as [|y l IH]; [by intros ?%elem_of_nil|].
  intros Hin. simpl. destruct (decide (y = x)) as [->|Hne]; [eauto|].
  apply elem_of_cons in Hin as [->|Hin]; [done|].
  destruct (IH Hin) as (l' & -> & Hlen). simpl. eexists. split; [done|].
  simpl. by rewrite Hlen.
Qed.

Lemma list_remove_not_elem_of (x : string) (l : list string) :
  x ∉ l → list_remove x l = lib_raise ValueError "list.remove(x): x not in list".
Proof.
  induction l as [|y l IH]; [done|].
  intros [Hne Hin]%not_elem_of_cons. simpl.
  rewrite decide_False by done. by rewrite IH.
Qed.

(** ** [_ahm_analysis_plugin.py] *)

Section AhmFacts.
Context `{Library} `{Framework}.
Import Ahm.

Lemma generatetable_listtoplot_ALL (joint_ks : DataFrame value) (c : string) :
  c ∈ generatetable_listtoplot joint_ks "ALL"
  ↔ c ∈ columns joint_ks ∧ str_in "All_obs" c = true.
Proof.
  unfold generatetable_listtoplot. rewrite decide_True by done. simpl.
  rewrite list_elem_of_filter, Is_true_true. tauto.
Qed.

(** C10, as amended.  For a choice other than ["ALL"] the list that
    [_generatetable] computes inline is the list of [get_listtoplot].  For
    ["ALL"] it is every column whose name contains ["All_obs"], the column
    ["All_obs"] itself included when the table has it; [get_listtoplot]
    returns that list without the first ["All_obs"], and raises
    [ValueError] when there is none. *)
Theorem get_listtoplot_vs_generatetable (joint_ks : DataFrame value) (choiceplot : string) :
  get_listtoplot joint_ks choiceplot =
    (if decide (choiceplot = "ALL")
     then list_remove "All_obs" (generatetable_listtoplot joint_ks choiceplot)
     else Ok (generatetable_listtoplot joint_ks choiceplot))
  ∧ ("All_obs" ∈ generatetable_listtoplot joint_ks "ALL" ↔ "All_obs" ∈ columns joint_ks).
Proof.
  split.
  - unfold get_listtoplot, generatetable_listtoplot.
    destruct (decide (choiceplot = "ALL")); [|done].
    by destruct (list_remove _ _).
  - rewrite generatetable_listtoplot_ALL. intuition.
Qed.

End AhmFacts.

(** C10 as stated fails: for the choice ["ALL"] the inline list of
    [_generatetable] keeps the column ["All_obs"], and [get_listtoplot]
    drops it. *)
Lemma generatetable_keeps_All_obs :
  ¬ (∀ (joint_ks : DataFrame value) (choiceplot : string),
       Ahm.get_listtoplot joint_ks choiceplot
       = Ok (Ahm.generatetable_listtoplot joint_ks choiceplot))
  ∧ Ahm.generatetable_listtoplot (frame_of_csv_index0 Sample.ks_csv) "ALL"
    = ["All_obs"; "All_obs-WOPR"]
  ∧ Ahm.get_listtoplot (frame_of_csv_index0 Sample.ks_csv) "ALL" = Ok ["All_obs-WOPR"].
Proof.
  split; [|split; reflexivity].
  intros Hall. specialize (Hall (frame_of_csv_index0 Sample.ks_csv) "ALL").
  vm_compute in Hall. discriminate.
Qed.

(** ** Code that only reads its state *)

Lemma readonly_ret {S A} (a : A) : readonly (mret a : Stateful S A).
Proof. done. Qed.

Lemma readonly_lift {S A} (r : result A) : readonly (lift r : Stateful S A).
Proof. done. Qed.

Lemma readonly_bind {S A B} (m : Stateful S A) (f : A → Stateful S B) :
  readonly m → (∀ a, readonly (f a)) → readonly (m ≫= f).
Proof.
  intros Hm Hf s. unfold mbind, stateful_bind.
  specialize (Hm s). destruct (m s) as [[a|e] s1]; simpl in *; subst; [apply Hf|done].
Qed.

Lemma readonly_getattr (name : string) : readonly (Ahm.getattr name).
Proof. done. Qed.

Lemma readonly_run {S A} (m : Stateful S A) (s : S) : readonly m → m s = ((m s).1, s).
Proof. intros Hm. specialize (Hm s). by destruct (m s); simpl in *; subst. Qed.

Create HintDb readonly.
#[local] Hint Resolve readonly_ret readonly_lift readonly_getattr : readonly.

Ltac readonly_step :=
  lazy zeta beta;
  first
    [ solve [auto with readonly]
    | apply readonly_bind; [|intros ?]
    | match goal with
      | |- readonly (if ?b then _ else _) => destruct b
      | |- readonly (match ?x with _ => _ end) => destruct x
      end ].

Section AhmState.
Context `{Library} `{Framework}.
Import Ahm.

Lemma readonly_self_uuid element : readonly (self_uuid element).
Proof. unfold self_uuid. repeat readonly_step. Qed.
#[local] Hint Resolve readonly_self_uuid : readonly.

Lemma readonly_update_graph fs a b c : readonly (_update_graph fs a b c).
Proof. unfold _update_graph. repeat readonly_step. Qed.

Lemma readonly_display_click_data fs celldata hist :
  readonly (_display_click_data fs celldata hist).
Proof. unfold _display_click_data. repeat readonly_step. Qed.

Lemma readonly_generatetable fs choiceplot max_rows :
  readonly (_generatetable fs choiceplot max_rows).
Proof. unfold _generatetable. repeat readonly_step. Qed.

Lemma readonly_invoke fs inv : readonly (invoke fs inv).
Proof.
  destruct inv; simpl;
    auto using readonly_update_graph, readonly_display_click_data, readonly_generatetable.
Qed.

Lemma invoke_all_id fs invs self : invoke_all fs invs self = self.
Proof.
  unfold invoke_all. induction invs as [|inv invs IH] in self |- *; simpl; [done|].
  by rewrite readonly_invoke.
Qed.

(** C6.  Whatever a callback returns or raises, the plugin object is
    afterwards what it was before: its attributes, [title] and [input_dir]
    among them, are unchanged, and a callback that runs after any series of
    invocations returns what it returns on the object as [__init__] left
    it. *)
Theorem callbacks_leave_plugin_unchanged fs (self : gmap string string) :
  (∀ a b c, (_update_graph fs a b c self).2 = self)
  ∧ (∀ celldata hist, (_display_click_data fs celldata hist self).2 = self)
  ∧ (∀ choiceplot max_rows, (_generatetable fs choiceplot max_rows self).2 = self)
  ∧ (∀ inv, (invoke fs inv self).2 !! "title" = self !! "title"
            ∧ (invoke fs inv self).2 !! "input_dir" = self !! "input_dir")
  ∧ (∀ history inv,
       (invoke fs inv (invoke_all fs history self)).1 = (invoke fs inv self).1).
Proof.
  split_and!.
  - intros. apply readonly_update_graph.
  - intros. apply readonly_display_click_data.
  - intros. apply readonly_generatetable.
  - intros inv. by rewrite readonly_invoke.
  - intros history inv. by rewrite invoke_all_id.
Qed.

End AhmState.

(** ** What a callback reads *)

Lemma prefix_app (d s : string) : String.prefix d (d +:+ s) = true.
Proof. induction d as [|c d IH]; simpl; [by destruct s|]. by destruct (ascii_dec c c). Qed.

Lemma prefix_app_app (d s t : string) : String.prefix d (d +:+ s +:+ t) = true.
Proof.
  induction d as [|c d IH]; simpl; [by destruct (s +:+ t)|]. by destruct (ascii_dec c c).
Qed.

(** The two sides run through the same steps: step by step, either both
    raise the same exception or both go on. *)
Ltac same_steps :=
  repeat (lazy beta iota zeta;
          match goal with
          | |- (match ?r with _ => _ end).1 = _ => destruct r
          | |- ((match ?r with _ => _ end) _).1 = _ => destruct r
          end;
          try reflexivity);
  try reflexivity.

Section AhmFiles.
Context `{Library} `{Framework}.
Import Ahm.

Lemma generatetable_files fs1 fs2 (self1 self2 : gmap string string) inputdata
    choiceplot max_rows :
  self1 !! "input_dir" = Some inputdata → self2 !! "input_dir" = Some inputdata →
  (∀ path, String.prefix inputdata path = true → fs1 !! path = fs2 !! path) →
  (_generatetable fs1 choiceplot max_rows self1).1
  = (_generatetable fs2 choiceplot max_rows self2).1.
Proof.
  intros Hdir1 Hdir2 Hfs.
  unfold _generatetable, mbind, stateful_bind, getattr, lift, read_csv_index0, open_csv.
  rewrite Hdir1, Hdir2, !Hfs by apply prefix_app.
  same_steps.
Qed.

Lemma update_graph_files fs1 fs2 (self1 self2 : gmap string string) inputdata a b c :
  self1 !! "input_dir" = Some inputdata → self2 !! "input_dir" = Some inputdata →
  self1 !! "_plugin_uuid" = self2 !! "_plugin_uuid" →
  (∀ path, String.prefix inputdata path = true → fs1 !! path = fs2 !! path) →
  (_update_graph fs1 a b c self1).1 = (_update_graph fs2 a b c self2).1.
Proof.
  intros Hdir1 Hdir2 Huuid Hfs.
  unfold _update_graph, self_uuid, mbind, stateful_bind, getattr, lift, read_csv_index0,
    open_csv.
  rewrite Hdir1, Hdir2, !Hfs by apply prefix_app.
  destruct (decide (inputdata = "")); [done|].
  lazy beta iota zeta. rewrite Huuid. unfold mret, stateful_ret.
  destruct (self2 !! "_plugin_uuid"); same_steps.
Qed.

Lemma display_click_data_files fs1 fs2 (self1 self2 : gmap string string) inputdata
    celldata hist_display :
  self1 !! "input_dir" = Some inputdata → self2 !! "input_dir" = Some inputdata →
  (∀ path, String.prefix inputdata path = true → fs1 !! path = fs2 !! path) →
  (∀ obs param rest,
     celldata = mkClickPoint obs (VStr param) :: rest → str_in "FIELD" param = true →
     let path := str_replace inputdata "scalar_" "field_" +:+ "/delta_field"
                   +:+ str_replace param "FIELD_" "" +:+ ".csv" in
     fs1 !! path = fs2 !! path) →
  (_display_click_data fs1 celldata hist_display self1).1
  = (_display_click_data fs2 celldata hist_display self2).1.
Proof.
  intros Hdir1 Hdir2 Hfs Hfield.
  unfold _display_click_data, mbind, stateful_bind, getattr, lift, read_csv_index0,
    read_csv, open_csv.
  rewrite Hdir1, Hdir2.
  rewrite (Hfs (inputdata +:+ "active_obs_info.csv")) by apply prefix_app.
  destruct celldata as [|[obs y] rest]; [cbn [first]; same_steps|].
  destruct y as [param| |]; cbn [first pt_x pt_y value_contains py_str]; [|same_steps..].
  rewrite (Hfs (inputdata +:+ "prior.csv")) by apply prefix_app.
  rewrite (Hfs (inputdata +:+ obs +:+ ".csv")) by apply prefix_app_app.
  destruct (str_in "FIELD" param) eqn:Efield.
  - rewrite (Hfield obs param rest eq_refl Efield). same_steps.
  - same_steps.
Qed.

(** C7, as amended.  What a callback returns or raises is determined by
    its inputs, by the attributes [input_dir] and [_plugin_uuid] of the
    plugin and by the CSV files it reads.  For [_update_graph] and
    [_generatetable] these are files of the input directory; so for fixed
    contents of the files in that directory two invocations on equal
    inputs return equal components, whatever else has changed and
    whichever callbacks ran in between.  [_display_click_data] on a
    parameter whose name contains ["FIELD"] also reads the delta file of
    the field directory, and returns equal components when that file is
    fixed too. *)
Theorem callbacks_determined_by_files fs1 fs2 (self1 self2 : gmap string string)
    inputdata :
  self1 !! "input_dir" = Some inputdata → self2 !! "input_dir" = Some inputdata →
  self1 !! "_plugin_uuid" = self2 !! "_plugin_uuid" →
  (∀ path, String.prefix inputdata path = true → fs1 !! path = fs2 !! path) →
  (∀ a b c, (_update_graph fs1 a b c self1).1 = (_update_graph fs2 a b c self2).1)
  ∧ (∀ choiceplot max_rows,
       (_generatetable fs1 choiceplot max_rows self1).1
       = (_generatetable fs2 choiceplot max_rows self2).1)
  ∧ (∀ celldata hist_display,
       (∀ obs param rest,
          celldata = mkClickPoint obs (VStr param) :: rest →
          str_in "FIELD" param = true →
          let path := str_replace inputdata "scalar_" "field_" +:+ "/delta_field"
                        +:+ str_replace param "FIELD_" "" +:+ ".csv" in
          fs1 !! path = fs2 !! path) →
       (_display_click_data fs1 celldata hist_display self1).1
       = (_display_click_data fs2 celldata hist_display self2).1)
  ∧ (∀ between a b c,
       (_update_graph fs2 a b c
          (invoke_all fs2 between (_update_graph fs1 a b c self1).2)).1
       = (_update_graph fs1 a b c self1).1)
  ∧ (∀ between choiceplot max_rows,
       (_generatetable fs2 choiceplot max_rows
          (invoke_all fs2 between (_generatetable fs1 choiceplot max_rows self1).2)).1
       = (_generatetable fs1 choiceplot max_rows self1).1).
Proof.
  intros Hdir1 Hdir2 Huuid Hfs. split_and!.
  - intros. by eapply update_graph_files.
  - intros. by eapply generatetable_files.
  - intros. by eapply display_click_data_files.
  - intros between a b c. rewrite invoke_all_id, readonly_update_graph.
    symmetry. by eapply update_graph_files.
  - intros between choiceplot max_rows. rewrite invoke_all_id, readonly_generatetable.
    symmetry. by eapply generatetable_files.
Qed.

End AhmFiles.


(** ** Running a method step by step *)

Lemma stateful_bind_Ok {S A B} (m : Stateful S A) (f : A → Stateful S B) s b s' :
  (m ≫= f) s = (Ok b, s') ↔ ∃ a s1, m s = (Ok a, s1) ∧ f a s1 = (Ok b, s').
Proof.
  unfold mbind, stateful_bind. destruct (m s) as [[a|e] s1]; split.
  - eauto.
  - by intros (? & ? & [= -> ->] & ?).
  - done.
  - by intros (? & ? & ? & ?).
Qed.

Lemma lift_Ok {S A} (r : result A) (s s' : S) (a : A) :
  lift r s = (Ok a, s') ↔ r = Ok a ∧ s' = s.
Proof. unfold lift. split; [by intros [= -> ->]|by intros [-> ->]]. Qed.

Lemma mret_Ok {S A} (a b : A) (s s' : S) :
  (mret a : Stateful S A) s = (Ok b, s') ↔ a = b ∧ s' = s.
Proof. unfold mret, stateful_ret. split; [by intros [= -> ->]|by intros [-> ->]]. Qed.

Lemma getattr_Ok name (self self' : gmap string string) v :
  Ahm.getattr name self = (Ok v, self') ↔ self !! name = Some v ∧ self' = self.
Proof.
  unfold Ahm.getattr. destruct (self !! name); split; try done.
  - by intros [= -> ->].
  - by intros [[= ->] ->].
  - by intros [? _].
Qed.

Lemma self_uuid_Ok `{Framework} element (self self' : gmap string string) v :
  Ahm.self_uuid element self = (Ok v, self') → self' = self.
Proof.
  intros E. pose proof (readonly_self_uuid element self) as R. by rewrite E in R.
Qed.

(** One step of a run that returned: a bind is split, an atomic step is read off. *)
Ltac run_step H :=
  lazy beta zeta match in H;
  lazymatch type of H with
  | (_ ≫= _) _ = (Ok _, _) =>
      let a := fresh "a" in
      let s := fresh "s" in
      let Hs := fresh "Hstep" in
      apply stateful_bind_Ok in H as (a & s & Hs & H);
      lazymatch type of Hs with
      | Ahm.getattr _ _ = _ => apply getattr_Ok in Hs as [Hs ->]
      | lift _ _ = _ => apply lift_Ok in Hs as [Hs ->]
      | Ahm.self_uuid _ _ = _ => apply self_uuid_Ok in Hs as ->
      | _ => idtac
      end
  | (if decide ?P then _ else _) _ = (Ok _, _) => destruct (decide P)
  | (if ?b then _ else _) _ = (Ok _, _) => destruct b
  | (mret _) _ = (Ok _, _) => apply mret_Ok in H as [H ->]
  end.

Lemma fmap_filter_comm {A B} (f : A → B) (P : B → Prop) (Q : A → Prop)
    `{!∀ x, Decision (P x)} `{!∀ x, Decision (Q x)} (l : list A) :
  (∀ a, Q a ↔ P (f a)) → f <$> filter Q l = filter P (f <$> l).
Proof.
  intros HPQ. induction l as [|a l IH]; [done|].
  rewrite fmap_cons, !filter_cons.
  destruct (decide (Q a)) as [Ha|Ha], (decide (P (f a))) as [Hb|Hb];
    rewrite ?fmap_cons, IH; try done; by apply HPQ in Ha || apply HPQ in Hb.
Qed.

Lemma index_filter_like_index {L} (f : L → string) (like : string) (df : DataFrame L) :
  index (filter_like_index f like df)
  = filter (λ l, Is_true (str_in like (f l))) (index df).
Proof. unfold index, filter_like_index. simpl. by apply fmap_filter_comm. Qed.

Lemma rows_replace_nan {L} (x : value) (df : DataFrame L) (r' : L * (string → value)) :
  r' ∈ rows (replace_nan x df)
  → ∃ r, r ∈ rows df ∧ r'.1 = r.1 ∧ ∀ c, r'.2 c = if isna (r.2 c) then x else r.2 c.
Proof.
  unfold replace_nan. simpl. intros (r & -> & Hr)%list_elem_of_fmap. eauto.
Qed.

Lemma index_replace_nan {L} (x : value) (df : DataFrame L) :
  index (replace_nan x df) = index df.
Proof.
  unfold index, replace_nan. simpl. rewrite <- list_fmap_compose.
  by apply list_fmap_ext.
Qed.

Lemma read_replace_nan_Ok fs path x joint_ks :
  replace_nan x <$> read_csv_index0 fs path = Ok joint_ks
  → ∃ ks, read_csv_index0 fs path = Ok ks ∧ joint_ks = replace_nan x ks.
Proof. by intros ?%result_fmap_Ok. Qed.

Section AhmGraph.
Context `{Library} `{Framework}.
Import Ahm.

(** What [_update_graph] went through when it returned a graph. *)
Lemma update_graph_Ok fs a b choiceplot self comp self' :
  _update_graph fs a b choiceplot self = (Ok comp, self') →
  (self !! "input_dir" = Some "" ∧ comp = EmptyStr)
  ∨ ∃ inputdata active_info ks listtoplot zz_data zall graph_id text text_all x0 y0,
      let joint_ks := replace_nan (VFloat 0) ks in
      let joint_ks_sorted := sort_index_columns (filter_items listtoplot joint_ks) in
      let xx_data := columns (filter_like_columns (set_inputfilter a) joint_ks_sorted) in
      let yy_data :=
        index (filter_like_index py_str (set_inputfilter b) joint_ks_sorted) in
      self !! "input_dir" = Some inputdata
      ∧ inputdata ≠ ""
      ∧ read_csv_index0 fs (inputdata +:+ "active_obs_info.csv") = Ok active_info
      ∧ read_csv_index0 fs (inputdata +:+ "ks.csv") = Ok ks
      ∧ get_listtoplot joint_ks choiceplot = Ok listtoplot
      ∧ get_zzdata joint_ks_sorted yy_data xx_data active_info = Ok zz_data
      ∧ to_numpy <$> loc value_eqb joint_ks yy_data ["All_obs"] py_str = Ok zall
      ∧ comp = Graph graph_id
                 (HeatmapFigure
                    [ mkHeatmap xx_data yy_data zz_data "YlGnBu" 0 1 "text" text None;
                      mkHeatmap ["All_obs"] yy_data zall "YlGnBu" 0 1 "text" text_all
                        (Some "x2") ]
                    ks_layout_title)
                 (Some [mkClickPoint x0 y0]).
Proof.
  unfold _update_graph. intros E.
  run_step E. run_step E.
  { run_step E. subst. by left. }
  right. do 11 run_step E. subst comp.
  match goal with
  | Hks : replace_nan _ <$> _ = Ok _ |- _ =>
      apply read_replace_nan_Ok in Hks as (ks & Hks & ->)
  end.
  by repeat eexists.
Qed.

End AhmGraph.

(** ** The KS matrix *)

Lemma for_each_cons {S B} (f : S → B → result S) (s : S) (b : B) (l : list B) :
  for_each f s (b :: l) = f s b ≫= λ s', for_each f s' l.
Proof. done. Qed.

Lemma for_each_inv {S B} (Inv : S → Prop) (f : S → B → result S) (l : list B) (s0 s : S) :
  (∀ s b s', b ∈ l → Inv s → f s b = Ok s' → Inv s') →
  Inv s0 → for_each f s0 l = Ok s → Inv s.
Proof.
  induction l as [|b l IH] in s0 |- *; intros Hf H0 E.
  - by injection E as <-.
  - rewrite for_each_cons in E. apply result_bind_Ok in E as (s1 & E1 & E).
    eapply IH; [|eapply (Hf s0 b s1); [left|done..]|done].
    intros ???? ; apply Hf. by right.
Qed.

Lemma for_each_prefix_inv {S B} (Inv : list B → S → Prop) (f : S → B → result S)
    (l : list B) (s0 s : S) :
  Inv [] s0 →
  (∀ pre b post s s',
     l = pre ++ b :: post → Inv pre s → f s b = Ok s' → Inv (pre ++ [b]) s') →
  for_each f s0 l = Ok s → Inv l s.
Proof.
  revert Inv s0. induction l as [|b l IH]; intros Inv s0 H0 Hstep E.
  - by injection E as <-.
  - rewrite for_each_cons in E. apply result_bind_Ok in E as (s1 & E1 & E).
    apply (IH (λ pre, Inv (b :: pre)) s1).
    + by apply (Hstep [] b l s0 s1).
    + intros pre b' post s2 s3 -> Hinv Ef. by apply (Hstep (b :: pre) b' post s2 s3).
    + done.
Qed.

(** Equal flags, shown as equivalent propositions. *)
Ltac bool_iff :=
  apply Bool.eq_true_iff_eq;
  rewrite ?orb_true_iff, ?andb_true_iff, ?bool_decide_eq_true, ?fmap_app, ?elem_of_app,
    ?list_elem_of_singleton.

Lemma elem_of_enumerate {A} (l : list A) (i : nat) (x : A) :
  (i, x) ∈ enumerate l → l !! i = Some x.
Proof.
  unfold enumerate. intros Hin.
  apply list_elem_of_lookup in Hin as [j Hj].
  rewrite list_lookup_imap in Hj.
  destruct (l !! j) eqn:E; simpl in Hj; [|done]. by injection Hj as <- <-.
Qed.

Lemma list_remove_subseteq (x : string) (l l' : list string) :
  list_remove x l = Ok l' → l' ⊆ l.
Proof.
  induction l as [|y l IH] in l' |- *; [done|]. simpl.
  destruct (decide (y = x)).
  - intros [= <-] z Hz. by right.
  - intros (l1 & E & ->)%result_fmap_Ok z [->|Hz]%elem_of_cons; [by left|].
    right. by apply (IH _ E).
Qed.

Lemma get_listtoplot_columns (joint_ks : DataFrame value) choiceplot listtoplot :
  Ahm.get_listtoplot joint_ks choiceplot = Ok listtoplot →
  Forall (λ c, c ∈ columns joint_ks) listtoplot.
Proof.
  unfold Ahm.get_listtoplot. simpl. intros E. apply list.Forall_forall. intros c Hc.
  destruct (decide (choiceplot = "ALL")).
  - apply result_bind_Ok in E as (l1 & E & [= ->]).
    apply list_remove_subseteq in E. apply E in Hc.
    by apply list_elem_of_filter in Hc as [_ ?].
  - injection E as <-. by apply list_elem_of_filter in Hc as [_ ?].
Qed.

Lemma loc_Ok {L} (eqb : L → L → bool) (df : DataFrame L) ys xs show sel :
  loc eqb df ys xs show = Ok sel →
  columns sel = xs
  ∧ (∀ x, x ∈ xs → x ∈ columns df)
  ∧ (∀ r, r ∈ rows sel → r ∈ rows df).
Proof.
  unfold loc. destruct (filter _ ys); [|done].
  destruct (filter _ xs) eqn:Exs; [|done]. intros [= <-]. simpl.
  split_and!; [done|..].
  - intros x Hx. destruct (decide (x ∈ columns df)) as [|Hn]; [done|].
    by destruct (filter_nil_not_elem_of _ _ x Exs Hn).
  - intros r (y & Hr & _)%list_elem_of_bind.
    by apply list_elem_of_filter in Hr as [_ ?].
Qed.

Section AhmMatrix.
Context `{Library} `{Framework}.
Import Ahm.

Lemma cell_at_array_set zz y x v zz' yid xid :
  array_set zz y x v = Ok zz' →
  cell_at zz' yid xid
  = if decide (yid = y ∧ xid = x) then Some v else cell_at zz yid xid.
Proof.
  unfold array_set, cell_at. destruct (zz !! y) as [row|] eqn:Erow; [|done].
  destruct (decide (x < length row)); [|done]. intros [= <-].
  destruct (decide (yid = y)) as [->|Hy].
  - rewrite list_lookup_insert_eq by by eapply lookup_lt_Some. simpl.
    destruct (decide (xid = x)) as [->|Hx].
    + rewrite decide_True by done. by rewrite list_lookup_insert_eq.
    + rewrite decide_False by tauto. rewrite list_lookup_insert_ne by done.
      by rewrite Erow.
  - rewrite decide_False by tauto. by rewrite list_lookup_insert_ne.
Qed.

Lemma no_active_first active_info x ws a0 :
  ratio_of active_info x ≫= value_split = Ok ws → first ws = Ok a0 →
  no_active active_info x ↔ a0 = "0".
Proof.
  intros (v & Ev & Ews)%result_bind_Ok Ea0. destruct ws as [|w ws]; [done|].
  injection Ea0 as ->. unfold no_active. split.
  - intros (v' & ws' & Ev' & Ews'). congruence.
  - intros ->. eauto.
Qed.

Lemma get_zzdata_cells df yy xx active_info zz :
  get_zzdata df yy xx active_info = Ok zz →
  ∃ sel,
    loc value_eqb df yy xx py_str = Ok sel
    ∧ ∀ yid xid,
        cell_at zz yid xid
        = r ← rows sel !! yid; x ← xx !! xid;
          Some (if decide (yid < length yy ∧ no_active active_info x)
                then NaN else r.2 x).
Proof.
  unfold get_zzdata. intros (zz0 & E0 & E)%result_bind_Ok.
  apply result_fmap_Ok in E0 as (sel & Esel & ->). exists sel. split; [done|].
  pose proof (loc_Ok _ _ _ _ _ _ Esel) as (Hcols & _ & _).
  set (shown := λ (P : nat → nat → bool) (yid xid : nat),
         r ← rows sel !! yid; x ← xx !! xid;
         Some (if P yid xid && bool_decide (no_active active_info x)
               then NaN else r.2 x)).
  assert (Hshown : ∀ P Q yid xid,
            (∀ x, xx !! xid = Some x → no_active active_info x → P yid xid = Q yid xid)
            → shown P yid xid = shown Q yid xid).
  { intros P Q yid xid HPQ. unfold shown. destruct (rows sel !! yid); [|done]. simpl.
    destruct (xx !! xid) as [x|]; [|done]. simpl. f_equal.
    destruct (decide (no_active active_info x)) as [Hna|Hna].
    - by rewrite (HPQ x).
    - rewrite (bool_decide_eq_false_2 _ Hna). by rewrite !andb_false_r. }
  cut (∀ yid xid, cell_at zz yid xid
                  = shown (λ y _, bool_decide (y ∈ seq 0 (length yy))) yid xid).
  { intros Hcut yid xid. rewrite Hcut. unfold shown.
    destruct (rows sel !! yid); [|done]. simpl. destruct (xx !! xid) as [x|]; [|done].
    simpl. f_equal.
    destruct (decide (yid < length yy ∧ no_active active_info x)) as [[Hlt Hna]|Hn].
    - rewrite !bool_decide_eq_true_2; [done..|]. apply elem_of_seq. lia.
    - destruct (decide (yid < length yy)).
      + rewrite (bool_decide_eq_false_2 (no_active _ _)) by tauto. by rewrite andb_false_r.
      + rewrite (bool_decide_eq_false_2 (yid ∈ _)); [done|]. rewrite elem_of_seq. lia. }
  refine (for_each_prefix_inv
            (λ done zz, ∀ yid xid,
               cell_at zz yid xid = shown (λ y _, bool_decide (y ∈ done)) yid xid)
            _ _ _ _ _ _ E).
  - intros yid xid. unfold cell_at, shown, to_numpy. rewrite list_lookup_fmap.
    destruct (rows sel !! yid) as [r|]; [|done]. simpl.
    rewrite list_lookup_fmap, Hcols. destruct (xx !! xid); [|done]. simpl.
    done.
  - intros done yid0 _ zz1 zz2 _ Inv1 E1.
    cut (∀ yid xid,
           cell_at zz2 yid xid
           = shown (λ y x, bool_decide (y ∈ done)
                           || (bool_decide (y = yid0)
                               && bool_decide (x ∈ (enumerate xx).*1))) yid xid).
    { intros Hcut yid xid. rewrite Hcut. apply Hshown. intros x Hx _.
      rewrite (bool_decide_eq_true_2 (xid ∈ _)).
      - bool_iff. tauto.
      - apply list_elem_of_fmap. exists (xid, x). split; [done|].
        unfold enumerate. apply list_elem_of_lookup. exists xid.
        by rewrite list_lookup_imap, Hx. }
    refine (for_each_prefix_inv
              (λ done_in zz, ∀ yid xid,
                 cell_at zz yid xid
                 = shown (λ y x, bool_decide (y ∈ done)
                                 || (bool_decide (y = yid0)
                                     && bool_decide (x ∈ done_in.*1))) yid xid)
              _ _ _ _ _ _ E1).
    + intros yid xid. rewrite Inv1. apply Hshown. intros _ _ _.
      rewrite (bool_decide_eq_false_2 (xid ∈ _)); [|by intros ?%elem_of_nil].
      by rewrite andb_false_r, orb_false_r.
    + intros done_in [xid0 x0] post zz3 zz4 Henum Inv3.
      intros (ws & Ews & (a0 & Ea0 & E4)%result_bind_Ok)%result_bind_Ok.
      pose proof (no_active_first _ _ _ _ Ews Ea0) as Hna.
      assert (Hx0 : xx !! xid0 = Some x0).
      { apply elem_of_enumerate. rewrite Henum. apply elem_of_app. right. left. }
      intros yid xid.
      destruct (decide (a0 = "0")) as [Ha0|Ha0].
      * rewrite (cell_at_array_set _ _ _ _ _ _ _ E4).
        destruct (decide (yid = yid0 ∧ xid = xid0)) as [[-> ->]|Hne].
        -- assert (is_Some (cell_at zz3 yid0 xid0)) as [z Hz].
           { unfold array_set in E4. unfold cell_at.
             destruct (zz3 !! yid0) as [row|]; [|done]. simpl.
             destruct (decide (xid0 < length row)); [|done]. by apply lookup_lt_is_Some. }
           rewrite Inv3 in Hz. unfold shown in Hz |- *.
           destruct (rows sel !! yid0); [|done]. simpl in *. rewrite Hx0. simpl.
           f_equal. rewrite (bool_decide_eq_true_2 (yid0 = yid0)) by done.
           rewrite (bool_decide_eq_true_2 (xid0 ∈ _))
             by (rewrite fmap_app; apply elem_of_app; right; left).
           rewrite orb_true_r. rewrite bool_decide_eq_true_2; [done|]. by apply Hna.
        -- rewrite Inv3. apply Hshown. intros _ _ _.
           bool_iff. cbn [fmap list_fmap fst]. rewrite list_elem_of_singleton. tauto.
      * injection E4 as <-. rewrite Inv3. apply Hshown. intros x Hx Hnax.
        destruct (decide (xid = xid0)) as [->|Hne].
        -- rewrite Hx0 in Hx. injection Hx as <-. by apply Hna in Hnax.
        -- bool_iff. cbn [fmap list_fmap fst]. rewrite list_elem_of_singleton. tauto.
Qed.


(** C9.  [set_inputfilter] turns the empty filter into ["_"] and keeps any
    other.  So with both filter boxes empty the matrix shows the
    observations of the chosen list, and the parameters, whose names
    contain an underscore, and it shows all of them only when every name
    does. *)
Theorem empty_filter_selects_underscore_names fs choiceplot self
    graph_id hm hm_all title click :
  set_inputfilter "" = "_"
  ∧ (∀ s, s ≠ "" → set_inputfilter s = s)
  ∧ ((_update_graph fs "" "" choiceplot self).1
       = Ok (Graph graph_id (HeatmapFigure [hm; hm_all] title) click) →
     ∃ inputdata ks listtoplot,
       self !! "input_dir" = Some inputdata
       ∧ read_csv_index0 fs (inputdata +:+ "ks.csv") = Ok ks
       ∧ get_listtoplot (replace_nan (VFloat 0) ks) choiceplot = Ok listtoplot
       ∧ let observations := sorted str_leb listtoplot in
         let parameters := index ks in
         hm_x hm = filter (λ o, Is_true (str_in "_" o)) observations
         ∧ hm_y hm = filter (λ p, Is_true (str_in "_" (py_str p))) parameters
         ∧ (hm_x hm = observations ↔ Forall (λ o, Is_true (str_in "_" o)) observations)
         ∧ (hm_y hm = parameters
            ↔ Forall (λ p, Is_true (str_in "_" (py_str p))) parameters)).
Proof.
  split_and!; [done|intros s Hs; unfold set_inputfilter; by rewrite decide_False|].
  intros E. rewrite (readonly_run _ self (readonly_update_graph _ _ _ _)) in E.
  simpl in E.
  destruct (_update_graph fs "" "" choiceplot self) as [r self'] eqn:Erun.
  simpl in E. subst r.
  apply update_graph_Ok in Erun as [[_ [=]]|Erun].
  destruct Erun as
    (inputdata & active_info & ks & listtoplot & zz & zall & gid & text & text_all
       & x0 & y0 & Hdir & _ & _ & Hks & Hlist & _ & _ & [= -> -> -> _ _]).
  exists inputdata, ks, listtoplot. split_and!; [done..|].
  assert (Hcols : filter (λ c, c ∈ columns ks) listtoplot = listtoplot).
  { apply filter_all_iff. by apply get_listtoplot_columns in Hlist. }
  simpl. rewrite Hcols, index_filter_like_index.
  change (set_inputfilter "") with "_".
  change (index (sort_index_columns (filter_items listtoplot ?d))) with (index d).
  rewrite index_replace_nan.
  split_and!; [done|done|apply filter_all_iff|apply filter_all_iff].
Qed.

Lemma loc_rows_fmap {L} (eqb : L → L → bool) (f : L * (string → value) → L * (string → value))
    (ys : list L) (l : list (L * (string → value))) :
  (∀ r, (f r).1 = r.1) →
  (ys ≫= λ y, filter (λ r, Is_true (eqb r.1 y)) (f <$> l))
  = f <$> (ys ≫= λ y, filter (λ r, Is_true (eqb r.1 y)) l).
Proof.
  intros Hf. induction ys as [|y ys IH]; [done|].
  cbn [mbind list_bind]. rewrite fmap_app, IH. f_equal.
  symmetry. apply fmap_filter_comm. intros r. by rewrite Hf.
Qed.

Lemma cell_at_to_numpy {L} (sel : DataFrame L) yid xid :
  cell_at (to_numpy sel) yid xid
  = r ← rows sel !! yid; x ← columns sel !! xid; Some (r.2 x).
Proof.
  unfold cell_at, to_numpy. rewrite list_lookup_fmap.
  destruct (rows sel !! yid) as [r|]; [|done]. simpl.
  rewrite list_lookup_fmap. by destruct (columns sel !! xid).
Qed.

(** C2, as amended.  The z-value at row [yid] and column [xid] of the main
    heatmap belongs to the [yid]-th of the rows of [ks.csv] that carry the
    shown parameters and to the observation at [xid]: it is [None] (read
    back as NaN) when that observation has no active data, and otherwise
    the cell of the row under that observation, taken unchanged, or [0.0]
    where the cell is NaN.  The strip beside it holds the cells under
    [All_obs] in the same way, and nothing is blanked there. *)
Theorem heatmap_values_from_ks fs a b choiceplot self graph_id heatmaps title click :
  (_update_graph fs a b choiceplot self).1
    = Ok (Graph graph_id (HeatmapFigure heatmaps title) click) →
  ∃ inputdata ks active_info hm hm_all,
    self !! "input_dir" = Some inputdata
    ∧ read_csv_index0 fs (inputdata +:+ "ks.csv") = Ok ks
    ∧ read_csv_index0 fs (inputdata +:+ "active_obs_info.csv") = Ok active_info
    ∧ heatmaps = [hm; hm_all]
    ∧ hm_x hm_all = ["All_obs"]
    ∧ hm_y hm_all = hm_y hm
    ∧ (∀ x, x ∈ hm_x hm → x ∈ columns ks)
    ∧ let shown_rows :=
        hm_y hm ≫= λ y, filter (λ r, Is_true (value_eqb r.1 y)) (rows ks) in
      let ks_value (r : value * (string → value)) (x : string) :=
        if isna (r.2 x) then VFloat 0 else r.2 x in
      (∀ yid xid,
         cell_at (hm_z hm) yid xid
         = r ← shown_rows !! yid; x ← hm_x hm !! xid;
           Some (if decide (yid < length (hm_y hm) ∧ no_active active_info x)
                 then NaN else ks_value r x))
      ∧ (∀ yid xid,
           cell_at (hm_z hm_all) yid xid
           = r ← shown_rows !! yid; x ← hm_x hm_all !! xid; Some (ks_value r x)).
Proof.
  intros E. rewrite (readonly_run _ self (readonly_update_graph _ _ _ _)) in E.
  simpl in E.
  destruct (_update_graph fs a b choiceplot self) as [res self'] eqn:Erun.
  simpl in E. subst res.
  apply update_graph_Ok in Erun as [[_ [=]]|Erun].
  destruct Erun as
    (inputdata & active_info & ks & listtoplot & zz & zall & gid & text & text_all
       & x0 & y0 & Hdir & _ & Hactive & Hks & Hlist & Hzz & Hzall & [= -> -> _ _]).
  eexists inputdata, ks, active_info, _, _.
  split_and!; [done..| |]; cbn [hm_x hm_y hm_z].
  - apply get_zzdata_cells in Hzz as (sel & Hsel & _).
    apply loc_Ok in Hsel as (_ & Hxs & _).
    intros x Hx%Hxs. apply elem_of_sorted, list_elem_of_filter in Hx. tauto.
  - assert (Hrows : ∀ yy : list value,
              (yy ≫= λ y, filter (λ r, Is_true (value_eqb r.1 y))
                            (rows (replace_nan (VFloat 0) ks)))
              = (λ r : value * (string → value),
                   (r.1, λ c, if isna (r.2 c) then VFloat 0 else r.2 c))
                  <$> (yy ≫= λ y, filter (λ r, Is_true (value_eqb r.1 y)) (rows ks))).
    { intros yy. unfold replace_nan. cbn [rows]. by apply loc_rows_fmap. }
    split.
    + apply get_zzdata_cells in Hzz as (sel & Hsel & Hcells).
      intros yid xid. rewrite Hcells.
      unfold loc in Hsel. destruct (filter _ _); [|done]. destruct (filter _ _); [|done].
      injection Hsel as <-. cbn [rows sort_index_columns filter_items].
      rewrite Hrows, list_lookup_fmap.
      by destruct (_ !! yid).
    + apply result_fmap_Ok in Hzall as (sel & Hsel & ->).
      intros yid xid. rewrite cell_at_to_numpy.
      unfold loc in Hsel. destruct (filter _ _); [|done]. destruct (filter _ _); [|done].
      injection Hsel as <-. cbn [rows columns].
      rewrite Hrows, list_lookup_fmap.
      by destruct (_ !! yid).
Qed.


End AhmMatrix.

Lemma append_slash_nonempty (s : string) : s +:+ "/" ≠ "".
Proof. by destruct s. Qed.

Lemma str_last_nonempty (s : string) (c : ascii) : Ahm.str_last s = Ok c → s ≠ "".
Proof. by destruct s. Qed.

Section AhmClick.
Context `{Library} `{Framework}.
Import Ahm.

(** [__init__] leaves a directory name that ends in a slash, so never the
    empty one. *)
Lemma init_input_dir uuid4 input_dir title self0 self :
  __init__ uuid4 input_dir title self0 = (Ok tt, self) →
  ∃ inputdata, self !! "input_dir" = Some inputdata ∧ inputdata ≠ "".
Proof.
  unfold __init__, set_callbacks. intros E.
  apply stateful_bind_Ok in E as (? & s1 & _ & E).
  apply stateful_bind_Ok in E as (? & s2 & _ & E).
  apply stateful_bind_Ok in E as (c & s3 & [Hc ->]%lift_Ok & E).
  apply stateful_bind_Ok in E as (? & s4 & [= _ <-] & [_ ->]%mret_Ok).
  eexists. split; [apply lookup_insert_eq|].
  destruct (decide (c ≠ "/"%char)).
  - apply append_slash_nonempty.
  - by eapply str_last_nonempty.
Qed.

Lemma px_column_Ok (df : DataFrame Z) name vs :
  px_column df name = Ok vs ↔ name ∈ columns df ∧ vs = (λ r : Z * (string → value), r.2 name) <$> rows df.
Proof.
  unfold px_column, df_getitem. destruct (decide (name ∈ columns df)); split.
  - intros [= <-]. split; [done|]. unfold values. by rewrite <- list_fmap_compose.
  - intros [_ ->]. unfold values. by rewrite <- list_fmap_compose.
  - done.
  - by intros [? _].
Qed.

(** C5, as amended.  On a plugin that [__init__] has set up, the callback
    returns in exactly two ways.  For a click on a parameter whose name
    contains ["FIELD"] it returns the scatter map of the delta file, when
    that file and [active_obs_info.csv] can be read and the file has the
    columns that the map names.  For a click on any other parameter it
    returns a histogram figure of exactly two traces, ["prior"] and
    ["update"]: the column [shown] of [prior.csv] and of the file of the
    observation, when both files have it and the observation has a ratio.
    [shown] is the clicked parameter, or with ["TRANS"] the first column
    of [prior.csv] whose name contains ["_"] and the parameter's name, if
    there is one. *)
Theorem display_click_data_shape fs uuid4 input_dir title self0 self
    celldata hist_display comp :
  __init__ uuid4 input_dir title self0 = (Ok tt, self) →
  (_display_click_data fs celldata hist_display self).1 = Ok comp
  ↔ ∃ obs param rest inputdata active_info,
      celldata = mkClickPoint obs (VStr param) :: rest
      ∧ self !! "input_dir" = Some inputdata
      ∧ read_csv_index0 fs (inputdata +:+ "active_obs_info.csv") = Ok active_info
      ∧ if str_in "FIELD" param
        then ∃ grid x y color z ix jy,
               let range_max :=
                 series_max
                   ((λ r : Z * (string → value),
                       series_max (r.2 <$> columns (filter_like_columns "Mean_" grid)))
                      <$> rows grid) in
               read_csv fs (str_replace inputdata "scalar_" "field_" +:+ "/delta_field"
                              +:+ str_replace param "FIELD_" "" +:+ ".csv") = Ok grid
               ∧ px_column grid "X_UTME" = Ok x
               ∧ px_column grid "Y_UTMN" = Ok y
               ∧ px_column grid ("Mean_D_" +:+ obs) = Ok color
               ∧ px_column grid "Z_TVDSS" = Ok z
               ∧ px_column grid "IX" = Ok ix
               ∧ px_column grid "JY" = Ok jy
               ∧ comp = Graph "2Dmap_avgdelta"
                          (ScatterFigure
                             (mkScatter x y color (VInt 0, range_max)
                                ("Mean_delta_posterior-prior " +:+ obs +:+ " ," +:+ param)
                                [ ("X_UTME", x); ("Y_UTMN", y); ("Z_TVDSS", z); ("IX", ix);
                                  ("JY", jy); ("Mean_D_" +:+ obs, color) ]))
                          None
        else ∃ prior_df post_df prior_x post_x ratio,
               let shown :=
                 if decide (hist_display = "TRANS") then
                   match filter (λ ele, Is_true (str_in ("_" +:+ param) ele))
                           (columns prior_df) with
                   | [] => param
                   | p :: _ => p
                   end
                 else param in
               read_csv fs (inputdata +:+ "prior.csv") = Ok prior_df
               ∧ read_csv fs (inputdata +:+ obs +:+ ".csv") = Ok post_df
               ∧ df_getitem prior_df shown = Ok prior_x
               ∧ df_getitem post_df shown = Ok post_x
               ∧ ratio_of active_info obs = Ok ratio
               ∧ comp = Graph "lineplots"
                          (HistogramFigure
                             [ mkHistogram (values prior_x) "prior" 10;
                               mkHistogram (values post_x) "update" 10 ]
                             ("Parameter distribution for observation " +:+ obs +:+ " ("
                                +:+ py_str ratio +:+ ")")
                             shown)
                          None.
Proof.
  intros (inputdata & Hdir & Hne)%init_input_dir. split.
  - intros E.
    rewrite (readonly_run _ self (readonly_display_click_data _ _ _)) in E. simpl in E.
    destruct (_display_click_data fs celldata hist_display self) as [res self'] eqn:Erun.
    simpl in E. subst res. unfold _display_click_data in Erun.
    run_step Erun. rewrite Hdir in Hstep. injection Hstep as <-.
    run_step Erun; [done|]. do 3 run_step Erun.
    destruct celldata as [|[obs y] rest]; [done|]. injection Hstep as <-.
    destruct y as [param| |]; try done. injection Hstep1 as <-.
    exists obs, param, rest, inputdata, a0. split_and!; [done..|]. simpl in Erun.
    run_step Erun.
    + do 6 run_step Erun. subst comp.
      repeat match goal with
      | E : mapM _ _ = Ok _ |- _ => progress simpl in E
      | E : _ ≫= _ = Ok _ |- _ => apply result_bind_Ok in E as (? & ? & E)
      | E : _ <$> _ = Ok _ |- _ => apply result_fmap_Ok in E as (? & ? & ->)
      | E : mret _ = Ok _ |- _ => injection E as <-
      | E1 : ?t = Ok _, E2 : ?t = Ok _ |- _ => rewrite E1 in E2; injection E2 as <-
      end.
      by repeat eexists.
    + do 6 run_step Erun. subst comp. by repeat eexists.
  - intros (obs & param & rest & inputdata' & active_info & -> & Hdir' & Hactive & Hshape).
    rewrite Hdir in Hdir'. injection Hdir' as <-.
    unfold _display_click_data, mbind, stateful_bind, getattr, lift. rewrite Hdir.
    rewrite decide_False by done. simpl. rewrite Hactive. simpl.
    destruct (str_in "FIELD" param).
    + destruct Hshape as (grid & x & y & color & z & ix & jy & Hgrid & Hx & Hy & Hc
                            & Hz & Hix & Hjy & ->).
      rewrite Hgrid. simpl. rewrite Hx, Hy, Hc. simpl. rewrite Hz, Hix, Hjy. done.
    + destruct Hshape as (prior_df & post_df & prior_x & post_x & ratio & Hprior & Hpost
                            & Hpx & Hqx & Hratio & ->).
      rewrite Hpost, Hprior, Hpx, Hqx, Hratio. done.
Qed.
End AhmClick.

Section AhmExamples.
Import Sample.

(** C9 at the sample directory: of the observations [FOPT_1] and [WOPR] and
    the parameters [MULT_X] and [PORO], the empty filters show [FOPT_1] and
    [MULT_X]. *)
Lemma empty_filter_selects_underscore_names_witness :
  ∃ graph_id hm hm_all title click ks listtoplot,
    (Ahm._update_graph files "" "" "ONE" plugin).1
    = Ok (Ahm.Graph graph_id (Ahm.HeatmapFigure [hm; hm_all] title) click)
    ∧ read_csv_index0 files "share/scalar_case/ks.csv" = Ok ks
    ∧ Ahm.get_listtoplot (replace_nan (VFloat 0) ks) "ONE" = Ok listtoplot
    ∧ sorted str_leb listtoplot = ["FOPT_1"; "WOPR"]
    ∧ index ks = [VStr "MULT_X"; VStr "PORO"]
    ∧ Ahm.hm_x hm = ["FOPT_1"]
    ∧ Ahm.hm_y hm = [VStr "MULT_X"]
    ∧ (Ahm.hm_x hm = sorted str_leb listtoplot
       ↔ Forall (λ o, Is_true (str_in "_" o)) (sorted str_leb listtoplot)).
Proof.
  evar (graph_id : string). evar (hm : Ahm.Heatmap). evar (hm_all : Ahm.Heatmap).
  evar (title : string). evar (click : option (list Ahm.ClickPoint)).
  assert (Erun : (Ahm._update_graph files "" "" "ONE" plugin).1
                 = Ok (Ahm.Graph graph_id (Ahm.HeatmapFigure [hm; hm_all] title) click)).
  { unfold graph_id, hm, hm_all, title, click. vm_compute. reflexivity. }
  destruct (empty_filter_selects_underscore_names (H := library) (H0 := framework)
              files "ONE" plugin graph_id hm hm_all title click) as (_ & _ & Hshown).
  destruct (Hshown Erun)
    as (inputdata & ks & listtoplot & Hdir & Hks & Hlist & Hx & Hy & Hall & _).
  injection Hdir as <-.
  exists graph_id, hm, hm_all, title, click, ks, listtoplot.
  split; [exact Erun|]. split; [exact Hks|]. split; [exact Hlist|].
  injection Hks as <-. injection Hlist as <-.
  split; [reflexivity|]. split; [reflexivity|]. split; [reflexivity|].
  split; [reflexivity|]. exact Hall.
Defined.

(** C2 as stated fails.  With [ks.csv] holding NaN for [MULT_X] under
  [FOPT_1] the heatmap shows [0.0] there, a value that no cell of the file
  has; and for [PORO] under [WOPR], an observation without active data, it
  shows [None] where the file has [0.25]. *)
Lemma heatmap_value_not_from_ks :
(∃ graph_id text hm_all title click,
   (Ahm._update_graph Sample.files "" "" "ONE" Sample.plugin).1
   = Ok (Ahm.Graph graph_id
           (Ahm.HeatmapFigure
              [ Ahm.mkHeatmap ["FOPT_1"] [VStr "MULT_X"] [[VFloat 0]]
                  "YlGnBu" 0 1 "text" text None; hm_all ] title) click))
∧ (∀ rec, rec ∈ records Sample.ks_csv → VFloat 0 ∉ rec)
∧ (∃ graph_id text hm_all title click,
     (Ahm._update_graph Sample.files "W" "PORO" "ONE" Sample.plugin).1
     = Ok (Ahm.Graph graph_id
             (Ahm.HeatmapFigure
                [ Ahm.mkHeatmap ["WOPR"] [VStr "PORO"] [[NaN]]
                    "YlGnBu" 0 1 "text" text None; hm_all ] title) click))
∧ at_ value_eqb (frame_of_csv_index0 Sample.ks_csv) (VStr "PORO") "WOPR" py_str
  = Ok (VFloat 0.25).
Proof.
split_and!.
- do 5 eexists. vm_compute. reflexivity.
- intros rec Hrec Hin.
  assert (Hall : forallb (forallb (λ v, negb (value_eqb v (VFloat 0))))
                   (records Sample.ks_csv) = true) by (vm_compute; reflexivity).
  rewrite forallb_forall in Hall.
  apply list_elem_of_In, Hall in Hrec. rewrite forallb_forall in Hrec.
  apply list_elem_of_In, Hrec in Hin. vm_compute in Hin. discriminate.
- do 5 eexists. vm_compute. reflexivity.
- vm_compute. reflexivity.
Qed.

(** C2 as amended, at the sample directory, with the observations that
    contain [O]: under [FOPT_1] the heatmap shows [0.0] for the NaN of the
    file, under [WOPR], an observation without active data, it shows
    [None], and the strip shows the cell under [All_obs]. *)
Lemma heatmap_values_from_ks_witness :
  ∃ graph_id hm hm_all title click ks active_info,
    (Ahm._update_graph files "O" "" "ONE" plugin).1
    = Ok (Ahm.Graph graph_id (Ahm.HeatmapFigure [hm; hm_all] title) click)
    ∧ read_csv_index0 files "share/scalar_case/ks.csv" = Ok ks
    ∧ read_csv_index0 files "share/scalar_case/active_obs_info.csv" = Ok active_info
    ∧ Ahm.hm_x hm = ["FOPT_1"; "WOPR"]
    ∧ Ahm.hm_y hm = [VStr "MULT_X"]
    ∧ at_ value_eqb ks (VStr "MULT_X") "FOPT_1" py_str = Ok NaN
    ∧ ¬ Ahm.no_active active_info "FOPT_1"
    ∧ Ahm.cell_at (Ahm.hm_z hm) 0 0 = Some (VFloat 0)
    ∧ at_ value_eqb ks (VStr "MULT_X") "WOPR" py_str = Ok (VFloat 0.75)
    ∧ Ahm.no_active active_info "WOPR"
    ∧ Ahm.cell_at (Ahm.hm_z hm) 0 1 = Some NaN
    ∧ at_ value_eqb ks (VStr "MULT_X") "All_obs" py_str = Ok (VFloat 0.5)
    ∧ Ahm.cell_at (Ahm.hm_z hm_all) 0 0 = Some (VFloat 0.5).
Proof.
  evar (graph_id : string). evar (hm : Ahm.Heatmap). evar (hm_all : Ahm.Heatmap).
  evar (title : string). evar (click : option (list Ahm.ClickPoint)).
  assert (Erun : (Ahm._update_graph files "O" "" "ONE" plugin).1
                 = Ok (Ahm.Graph graph_id (Ahm.HeatmapFigure [hm; hm_all] title) click)).
  { unfold graph_id, hm, hm_all, title, click. vm_compute. reflexivity. }
  destruct (heatmap_values_from_ks (H := library) (H0 := framework)
              files "O" "" "ONE" plugin graph_id [hm; hm_all] title click Erun)
    as (inputdata & ks & active_info & hm' & hm_all' & Hdir & Hks & Hactive & Hhms
          & _ & _ & _ & Hcells & Hall).
  injection Hdir as <-. injection Hhms as <- <-.
  exists graph_id, hm, hm_all, title, click, ks, active_info.
  split; [exact Erun|]. split; [exact Hks|]. split; [exact Hactive|].
  rewrite (Hcells 0 0), (Hcells 0 1), (Hall 0 0).
  injection Hks as <-. injection Hactive as <-.
  split_and!; try (vm_compute; reflexivity).
  - intros (v & ws & [= <-] & [=]).
  - by exists (VStr "0 active/1"), ["active/1"].
Defined.

(** C5 as stated fails.  With the transformed distributions asked for, a
    click on [PORO] shows the histograms of [MULT_PORO], the first column
    of [prior.csv] whose name contains [_PORO]: another parameter, not
    the clicked one. *)
Lemma click_on_PORO_shows_MULT_PORO :
  ∃ prior post layout_title,
    (Ahm._display_click_data files [Ahm.mkClickPoint "WOPR" (VStr "PORO")] "TRANS"
       plugin).1
    = Ok (Ahm.Graph "lineplots"
            (Ahm.HistogramFigure
               [ Ahm.mkHistogram prior "prior" 10; Ahm.mkHistogram post "update" 10 ]
               layout_title "MULT_PORO")
            None)
    ∧ prior = [VFloat 3; VFloat 4]
    ∧ post = [VFloat 3.5; VFloat 3.75]
    ∧ values <$> (read_csv files "share/scalar_case/prior.csv" ≫= λ df, df_getitem df "PORO")
      = Ok [VFloat 0.25; VFloat 0.5]
    ∧ values <$> (read_csv files "share/scalar_case/WOPR.csv" ≫= λ df, df_getitem df "PORO")
      = Ok [VFloat 0.25; VFloat 0.375]
    ∧ prior ≠ [VFloat 0.25; VFloat 0.5]
    ∧ post ≠ [VFloat 0.25; VFloat 0.375].
Proof.
  do 3 eexists. split; [vm_compute; reflexivity|].
  split; [reflexivity|]. split; [reflexivity|].
  split; [vm_compute; reflexivity|]. split; [vm_compute; reflexivity|].
  split; intros [= E _]; apply (f_equal (PrimFloat.eqb 3)) in E; vm_compute in E;
    discriminate.
Qed.

(** C5 as amended, at the sample directory: a click on [FIELD_PERM] under
    [WOPR] returns the scatter map of [delta_fieldPERM.csv], and a click on
    [MULT_X] with the transformed distributions asked for returns the
    histograms of [LOG10_MULT_X]. *)
Lemma display_click_data_shape_witness :
  (∃ grid x y color z ix jy range_max,
     read_csv files "share/field_case//delta_fieldPERM.csv" = Ok grid
     ∧ Ahm.px_column grid "X_UTME" = Ok x
     ∧ Ahm.px_column grid "Y_UTMN" = Ok y
     ∧ Ahm.px_column grid "Mean_D_WOPR" = Ok color
     ∧ (Ahm._display_click_data files [Ahm.mkClickPoint "WOPR" (VStr "FIELD_PERM")]
          "DFLT" plugin).1
       = Ok (Ahm.Graph "2Dmap_avgdelta"
               (Ahm.ScatterFigure
                  (Ahm.mkScatter x y color (VInt 0, range_max)
                     "Mean_delta_posterior-prior WOPR ,FIELD_PERM"
                     [ ("X_UTME", x); ("Y_UTMN", y); ("Z_TVDSS", z); ("IX", ix);
                       ("JY", jy); ("Mean_D_WOPR", color) ]))
               None))
  ∧ (∃ prior_df post_df prior_x post_x,
       read_csv files "share/scalar_case/prior.csv" = Ok prior_df
       ∧ read_csv files "share/scalar_case/WOPR.csv" = Ok post_df
       ∧ df_getitem prior_df "LOG10_MULT_X" = Ok prior_x
       ∧ df_getitem post_df "LOG10_MULT_X" = Ok post_x
       ∧ (Ahm._display_click_data files [Ahm.mkClickPoint "WOPR" (VStr "MULT_X")]
            "TRANS" plugin).1
         = Ok (Ahm.Graph "lineplots"
                 (Ahm.HistogramFigure
                    [ Ahm.mkHistogram (values prior_x) "prior" 10;
                      Ahm.mkHistogram (values post_x) "update" 10 ]
                    "Parameter distribution for observation WOPR (0 active/1)"
                    "LOG10_MULT_X")
                 None)).
Proof.
  assert (Hinit : Ahm.__init__ "u1" "share/scalar_case" None ∅ = (Ok tt, plugin))
    by (vm_compute; reflexivity).
  split.
  - evar (comp : Ahm.Component).
    assert (Erun : (Ahm._display_click_data files
                      [Ahm.mkClickPoint "WOPR" (VStr "FIELD_PERM")] "DFLT" plugin).1
                   = Ok comp) by (unfold comp; vm_compute; reflexivity).
    destruct (proj1 (display_click_data_shape (H := library) files _ _ _ _ _ _ "DFLT" comp
                       Hinit) Erun)
      as (obs & param & rest & inputdata & active_info & Hcell & Hdir & _ & Hshape).
    injection Hcell as <- <- <-. injection Hdir as <-.
    change (str_in "FIELD" "FIELD_PERM") with true in Hshape.
    destruct Hshape as (grid & x & y & color & z & ix & jy & Hgrid & Hx & Hy & Hc & _ & _
                          & _ & Hcomp).
    exists grid, x, y, color, z, ix, jy. eexists.
    split_and!; [exact Hgrid|exact Hx|exact Hy|exact Hc|].
    rewrite Erun. f_equal. exact Hcomp.
  - eexists (frame_of_csv prior_csv), (frame_of_csv wopr_csv), _, _.
    split; [reflexivity|]. split; [reflexivity|].
    split; [reflexivity|]. split; [reflexivity|].
    apply (display_click_data_shape (H := library) files _ _ _ _ _ _ "TRANS" _ Hinit).
    exists "WOPR", "MULT_X", [], "share/scalar_case/",
      (frame_of_csv_index0 active_obs_info_csv).
    split; [reflexivity|]. split; [reflexivity|]. split; [reflexivity|].
    change (str_in "FIELD" "MULT_X") with false.
    exists (frame_of_csv prior_csv), (frame_of_csv wopr_csv).
    do 2 eexists. exists (VStr "0 active/1").
    split; [reflexivity|]. split; [reflexivity|].
    split; [reflexivity|]. split; [reflexivity|]. split; reflexivity.
Defined.

Lemma files_later_input_dir (path : string) :
  String.prefix "share/scalar_case/" path = true → files !! path = files_later !! path.
Proof.
  intros Hpre. unfold files_later. rewrite lookup_insert_ne; [done|].
  intros <-. vm_compute in Hpre. discriminate.
Qed.

(** C7 as stated fails.  With every file of the input directory as it was,
    a click on [FIELD_PERM] returns another scatter map once the delta
    file of the field directory, which is not in the input directory, has
    been written anew. *)
Lemma click_on_field_reads_outside_input_dir :
  plugin !! "input_dir" = Some "share/scalar_case/"
  ∧ (∀ path, String.prefix "share/scalar_case/" path = true
             → files !! path = files_later !! path)
  ∧ (∃ sc sc',
       (Ahm._display_click_data files [Ahm.mkClickPoint "WOPR" (VStr "FIELD_PERM")]
          "DFLT" plugin).1
       = Ok (Ahm.Graph "2Dmap_avgdelta" (Ahm.ScatterFigure sc) None)
       ∧ (Ahm._display_click_data files_later
            [Ahm.mkClickPoint "WOPR" (VStr "FIELD_PERM")] "DFLT" plugin).1
         = Ok (Ahm.Graph "2Dmap_avgdelta" (Ahm.ScatterFigure sc') None)
       ∧ Ahm.sc_x sc = [VFloat 1; VFloat 4]
       ∧ Ahm.sc_x sc' = [VFloat 7])
  ∧ (Ahm._display_click_data files [Ahm.mkClickPoint "WOPR" (VStr "FIELD_PERM")]
       "DFLT" plugin).1
    ≠ (Ahm._display_click_data files_later [Ahm.mkClickPoint "WOPR" (VStr "FIELD_PERM")]
         "DFLT" plugin).1.
Proof.
  split; [reflexivity|]. split; [exact files_later_input_dir|].
  assert (Hruns : ∃ sc sc',
            (Ahm._display_click_data files [Ahm.mkClickPoint "WOPR" (VStr "FIELD_PERM")]
               "DFLT" plugin).1
            = Ok (Ahm.Graph "2Dmap_avgdelta" (Ahm.ScatterFigure sc) None)
            ∧ (Ahm._display_click_data files_later
                 [Ahm.mkClickPoint "WOPR" (VStr "FIELD_PERM")] "DFLT" plugin).1
              = Ok (Ahm.Graph "2Dmap_avgdelta" (Ahm.ScatterFigure sc') None)
            ∧ Ahm.sc_x sc = [VFloat 1; VFloat 4]
            ∧ Ahm.sc_x sc' = [VFloat 7]).
  { do 2 eexists. split; [vm_compute; reflexivity|].
    split; [vm_compute; reflexivity|]. split; reflexivity. }
  split; [exact Hruns|].
  destruct Hruns as (sc & sc' & -> & -> & Hx & Hx'). intros [= <-].
  rewrite Hx in Hx'. discriminate.
Qed.

(** C7 as amended, at the sample directory: with the files of the input
    directory as they were, the callbacks return what they returned, also
    on a plugin whose title has changed. *)
Lemma callbacks_determined_by_files_witness :
  (Ahm._update_graph files "O" "" "ONE" plugin).1
  = (Ahm._update_graph files_later "O" "" "ONE" (<["title" := "KS"]> plugin)).1
  ∧ (Ahm._generatetable files "ONE" 10 plugin).1
    = (Ahm._generatetable files_later "ONE" 10 (<["title" := "KS"]> plugin)).1
  ∧ (Ahm._display_click_data files [Ahm.mkClickPoint "WOPR" (VStr "MULT_X")] "TRANS"
       plugin).1
    = (Ahm._display_click_data files_later [Ahm.mkClickPoint "WOPR" (VStr "MULT_X")]
         "TRANS" (<["title" := "KS"]> plugin)).1
  ∧ (∃ table, (Ahm._generatetable files "ONE" 10 plugin).1
              = Ok (Ahm.DataTable ["Ks_value"; "Obs"; "Param"; "Active Obs";
                                   "Avg Obs misfit"] table 10)
              ∧ length table = 4).
Proof.
  destruct (callbacks_determined_by_files (H := library) (H0 := framework)
              files files_later plugin (<["title" := "KS"]> plugin) "share/scalar_case/")
    as (Hgraph & Htable & Hclick & _).
  { reflexivity. }
  { reflexivity. }
  { reflexivity. }
  { exact files_later_input_dir. }
  split; [apply Hgraph|]. split; [apply Htable|]. split.
  - apply Hclick. intros obs param rest [= <- <- <-] Hfield. vm_compute in Hfield.
    discriminate.
  - eexists. split; [vm_compute; reflexivity|reflexivity].
Defined.

End AhmExamples.

(** ** [simulation_timeseries_model.py] *)

Lemma df_setitem_rows {L} (df : DataFrame L) (c : string) (g : L * (string → value) → value) :
  rows (df_setitem df c (g <$> rows df))
  = (λ r, (r.1, λ c', if decide (c' = c) then g r else r.2 c')) <$> rows df.
Proof.
  unfold df_setitem. cbn [rows].
  by rewrite zip_with_fmap_r, zip_with_diag, <- list_fmap_compose.
Qed.

Lemma df_setitem_columns {L} (df : DataFrame L) (c : string) (vs : list value) :
  c ∈ columns df → columns (df_setitem df c vs) = columns df.
Proof. intros Hc. unfold df_setitem. cbn [columns]. by rewrite decide_True. Qed.

Lemma df_getitem_Ok {L} (df : DataFrame L) (c : string) (s : Series L) :
  df_getitem df c = Ok s ↔ c ∈ columns df ∧ s = (λ r, (r.1, r.2 c)) <$> rows df.
Proof.
  unfold df_getitem. destruct (decide (c ∈ columns df)); split.
  - by intros [= <-].
  - by intros [_ ->].
  - done.
  - by intros [? _].
Qed.

Section TimeseriesInit.
Context `{Library} `{Framework}.
Import Timeseries.

(** What [_prepare_and_validate_data] does, case by case. *)
Lemma prepare_run (dataframe : nat) (h : gmap nat (DataFrame Z)) :
  _prepare_and_validate_data dataframe h =
    match h !! dataframe with
    | None => (lib_raise AttributeError "dataframe", h)
    | Some df =>
        match filter (λ c, c ∉ columns df) ["ENSEMBLE"; "REAL"; "DATE"] with
        | c :: _ => (own_raise KeyError (c +:+ " column is missing from UNSMRY data"), h)
        | [] => (Ok tt, <[dataframe := df_setitem df "DATE" (date_as_str <$> rows df)]> h)
        end
    end.
Proof.
  unfold _prepare_and_validate_data, mbind, stateful_bind, load, deref. simpl.
  unfold mbind, stateful_bind, load, deref.
  destruct (h !! dataframe) as [df|] eqn:Edf; [|done].
  rewrite !filter_cons, filter_nil.
  destruct (decide ("ENSEMBLE" ∉ columns df)); [done|]. simpl. rewrite Edf.
  destruct (decide ("REAL" ∉ columns df)); [done|]. simpl. rewrite Edf.
  destruct (decide ("DATE" ∉ columns df)) as [|Hdate]; [done|]. simpl.
  rewrite Edf. unfold store, df_getitem. rewrite decide_True by by apply dec_stable.
  unfold astype_str, values. by rewrite <- !list_fmap_compose.
Qed.

(** C8.  On a frame that has the columns ENSEMBLE, REAL and DATE,
    [__init__] returns a model that holds the caller's reference, and it
    has changed the frame behind that reference in place: the DATE cells
    are the [str] of what they were, every other column, the column labels
    and the row labels are what they were, and no other object is
    touched.  It returns on no other frame. *)
Theorem init_converts_DATE_in_place dataframe theme metadata fallback
    (h : gmap nat (DataFrame Z)) :
  (∀ df,
     h !! dataframe = Some df →
     "ENSEMBLE" ∈ columns df → "REAL" ∈ columns df → "DATE" ∈ columns df →
     ∃ df',
       __init__ dataframe theme metadata fallback h
       = (Ok (mkModel dataframe theme metadata
                (set_simulation_line_shape_fallback fallback)),
          <[dataframe := df']> h)
       ∧ columns df' = columns df
       ∧ index df' = index df
       ∧ df_getitem df' "DATE" = Ok ((λ r, (r.1, VStr (py_str (r.2 "DATE")))) <$> rows df)
       ∧ (∀ c, c ≠ "DATE" → df_getitem df' c = df_getitem df c))
  ∧ (∀ self h',
       __init__ dataframe theme metadata fallback h = (Ok self, h') →
       ∃ df, h !! dataframe = Some df
             ∧ "ENSEMBLE" ∈ columns df ∧ "REAL" ∈ columns df ∧ "DATE" ∈ columns df).
Proof.
  split.
  - intros df Hdf Hens Hreal Hdate.
    exists (df_setitem df "DATE" (date_as_str <$> rows df)).
    split_and!.
    + unfold __init__, mbind, stateful_bind. rewrite prepare_run, Hdf.
      rewrite !filter_cons, filter_nil.
      by rewrite !decide_False by (by intros []).
    + by apply df_setitem_columns.
    + unfold index. rewrite df_setitem_rows, <- list_fmap_compose. by apply list_fmap_ext.
    + apply df_getitem_Ok. rewrite df_setitem_columns by done. split; [done|].
      rewrite df_setitem_rows, <- list_fmap_compose. apply list_fmap_ext.
      intros i r _. unfold compose. cbn [fst snd].
      by rewrite (decide_True (P := "DATE" = "DATE")).
    + intros c Hc. unfold df_getitem.
      rewrite df_setitem_columns, df_setitem_rows, <- list_fmap_compose by done.
      destruct (decide (c ∈ columns df)); [|done]. f_equal.
      apply list_fmap_ext. intros i r _. unfold compose. cbn [fst snd].
      by rewrite decide_False.
  - unfold __init__. intros self h' (? & h1 & Eprep & _)%stateful_bind_Ok.
    rewrite prepare_run in Eprep.
    destruct (h !! dataframe) as [df|] eqn:Edf; [|done].
    destruct (filter _ _) eqn:Ecols; [|done].
    exists df. split; [done|].
    split_and!; apply dec_stable; intros Hn;
      by destruct (filter_nil_not_elem_of _ _ _ Ecols Hn); set_solver.
Qed.
End TimeseriesInit.

(** ** Where exceptions come from *)

Lemma lib_only_Ok {A} (a : A) : lib_only (Ok a).
Proof. by intros e. Qed.

Lemma lib_only_mret {A} (a : A) : lib_only (mret a).
Proof. by intros e. Qed.

Lemma lib_only_lib_raise {A} k msg : lib_only (lib_raise k msg : result A).
Proof. by intros e [= <-]. Qed.

Lemma lib_only_bind {A B} (m : result A) (f : A → result B) :
  lib_only m → (∀ a, lib_only (f a)) → lib_only (m ≫= f).
Proof.
  intros Hm Hf. destruct m as [a|e]; [apply Hf|intros e' [= <-]; by apply Hm].
Qed.

Lemma lib_only_fmap {A B} (f : A → B) (m : result A) : lib_only m → lib_only (f <$> m).
Proof. intros Hm. destruct m as [a|e]; [by intros e|intros e' [= <-]; by apply Hm]. Qed.

Lemma lib_only_for_each {S B} (f : S → B → result S) (s : S) (l : list B) :
  (∀ s b, lib_only (f s b)) → lib_only (for_each f s l).
Proof.
  intros Hf. induction l as [|b l IH] in s |- *; [by intros e|].
  rewrite for_each_cons. by apply lib_only_bind.
Qed.

Lemma lib_only_mapM {A B} (f : A → result B) (l : list A) :
  (∀ a, lib_only (f a)) → lib_only (mapM f l).
Proof.
  intros Hf. induction l as [|a l IH]; [by intros e|]. simpl.
  apply lib_only_bind; [done|]. intros b. apply lib_only_bind; [done|]. by intros ? e.
Qed.

Lemma lib_only_try_except {A} (m h : result A) k :
  lib_only m → lib_only h → lib_only (try_except m k h).
Proof.
  intros Hm Hh. destruct m as [a|e]; simpl; [by intros e|].
  destruct (decide _); [exact Hh|exact Hm].
Qed.

Lemma raises_lib_only_ret {S A} (a : A) : raises_lib_only (mret a : Stateful S A).
Proof. by intros s e. Qed.

Lemma raises_lib_only_lift {S A} (r : result A) :
  lib_only r → raises_lib_only (lift r : Stateful S A).
Proof. by intros Hr s. Qed.

Lemma raises_lib_only_bind {S A B} (m : Stateful S A) (f : A → Stateful S B) :
  raises_lib_only m → (∀ a, raises_lib_only (f a)) → raises_lib_only (m ≫= f).
Proof.
  intros Hm Hf s. unfold mbind, stateful_bind. specialize (Hm s).
  destruct (m s) as [[a|e] s1]; simpl in *; [apply Hf|].
  intros e' [= <-]. by apply Hm.
Qed.

Lemma raises_lib_only_getattr name : raises_lib_only (Ahm.getattr name).
Proof. intros s. unfold Ahm.getattr. simpl. destruct (s !! name); by intros e [= <-]. Qed.

Lemma raises_lib_only_setattr name v : raises_lib_only (Ahm.setattr name v).
Proof. by intros s e. Qed.

Create HintDb lib.
#[local] Hint Resolve lib_only_Ok lib_only_mret lib_only_lib_raise raises_lib_only_ret
  raises_lib_only_getattr raises_lib_only_setattr : lib.

Ltac lib_step :=
  lazy beta zeta;
  first
    [ solve [auto with lib]
    | apply lib_only_bind; [|intros ?]
    | apply lib_only_fmap
    | apply lib_only_for_each; intros ? ?
    | apply lib_only_mapM; intros ?
    | apply lib_only_try_except
    | apply raises_lib_only_bind; [|intros ?]
    | apply raises_lib_only_lift
    | match goal with
      | |- lib_only (match ?x with _ => _ end) => destruct x
      | |- raises_lib_only (match ?x with _ => _ end) => destruct x
      end ].

Lemma lib_only_first {A} (l : list A) : lib_only (first l).
Proof. unfold first. repeat lib_step. Qed.

Lemma lib_only_getitem {A} (l : list A) i : lib_only (getitem l i).
Proof. unfold getitem. repeat lib_step. Qed.

Lemma lib_only_list_remove x l : lib_only (list_remove x l).
Proof. induction l; simpl; repeat lib_step. Qed.

Lemma lib_only_list_index_from {A} (eqb : A → A → bool) x l i :
  lib_only (list_index_from eqb x l i).
Proof. induction l in i |- *; simpl; repeat lib_step. Qed.

Lemma lib_only_str_last s : lib_only (Ahm.str_last s).
Proof. induction s as [|c [|]]; simpl; repeat lib_step. Qed.

Lemma lib_only_df_getitem {L} (df : DataFrame L) c : lib_only (df_getitem df c).
Proof. unfold df_getitem. repeat lib_step. Qed.

Lemma lib_only_drop_columns {L} cs (df : DataFrame L) : lib_only (drop_columns cs df).
Proof. unfold drop_columns. repeat lib_step. Qed.

Lemma lib_only_loc {L} eqb (df : DataFrame L) ys xs show : lib_only (loc eqb df ys xs show).
Proof. unfold loc. repeat lib_step. Qed.

Lemma lib_only_at {L} eqb (df : DataFrame L) y x show : lib_only (at_ eqb df y x show).
Proof. unfold at_. repeat lib_step. Qed.

Lemma lib_only_xs {L} (s : Series (string * L)) name : lib_only (xs s name).
Proof. unfold xs. repeat lib_step. Qed.

#[local] Hint Resolve lib_only_first lib_only_getitem lib_only_list_remove
  lib_only_list_index_from lib_only_str_last lib_only_df_getitem lib_only_drop_columns
  lib_only_loc lib_only_at lib_only_xs : lib.

Lemma lib_only_groupby {L} (df : DataFrame L) key : lib_only (groupby df key).
Proof. unfold groupby. repeat lib_step. Qed.

Lemma lib_only_open_csv fs path : lib_only (open_csv fs path).
Proof. unfold open_csv. repeat lib_step. Qed.

#[local] Hint Resolve lib_only_groupby lib_only_open_csv : lib.

Lemma lib_only_read_csv fs path : lib_only (read_csv fs path).
Proof. unfold read_csv. repeat lib_step. Qed.

Lemma lib_only_read_csv_index0 fs path : lib_only (read_csv_index0 fs path).
Proof. unfold read_csv_index0. repeat lib_step. Qed.

Lemma lib_only_deref h l : lib_only (Timeseries.deref h l).
Proof. unfold Timeseries.deref. repeat lib_step. Qed.

Lemma lib_only_dict_getitem {V} (d : gmap string V) k : lib_only (Timeseries.dict_getitem d k).
Proof. unfold Timeseries.dict_getitem. repeat lib_step. Qed.

#[local] Hint Resolve lib_only_read_csv lib_only_read_csv_index0 lib_only_deref
  lib_only_dict_getitem : lib.

Section Origins.
Context `{Library} `{Framework}.

Lemma lib_only_py_int s : lib_only (py_int s).
Proof. unfold py_int. repeat lib_step. Qed.

Lemma lib_only_value_split v : lib_only (value_split v).
Proof. unfold value_split. repeat lib_step. Qed.

Lemma lib_only_get_listtoplot joint_ks choiceplot :
  lib_only (Ahm.get_listtoplot joint_ks choiceplot).
Proof. unfold Ahm.get_listtoplot. repeat lib_step. Qed.

Lemma lib_only_ratio_of active_info obs : lib_only (Ahm.ratio_of active_info obs).
Proof. unfold Ahm.ratio_of. repeat lib_step. Qed.

Lemma lib_only_array_set zz yid xid v : lib_only (Ahm.array_set zz yid xid v).
Proof. unfold Ahm.array_set. repeat lib_step. Qed.

#[local] Hint Resolve lib_only_py_int lib_only_value_split lib_only_get_listtoplot
  lib_only_ratio_of lib_only_array_set : lib.

Lemma lib_only_get_zzdata df yy xx active_info :
  lib_only (Ahm.get_zzdata df yy xx active_info).
Proof. unfold Ahm.get_zzdata. repeat lib_step. Qed.

Lemma lib_only_hovertext_list xx yy zz active_info :
  lib_only (Ahm.hovertext_list xx yy zz active_info).
Proof. unfold Ahm.hovertext_list. repeat lib_step. Qed.

Lemma lib_only_labels_where joint_ks keyss indk :
  lib_only (Ahm.labels_where joint_ks keyss indk).
Proof. unfold Ahm.labels_where. repeat lib_step. Qed.

#[local] Hint Resolve lib_only_get_zzdata lib_only_hovertext_list lib_only_labels_where : lib.

Lemma lib_only_get_ks_filter listtoplot active_info misfit_info joint_ks :
  lib_only (Ahm.get_ks_filter listtoplot active_info misfit_info joint_ks).
Proof. unfold Ahm.get_ks_filter. repeat lib_step. Qed.

Lemma lib_only_px_column df name : lib_only (Ahm.px_column df name).
Proof. unfold Ahm.px_column. repeat lib_step. Qed.

Lemma lib_only_value_contains needle v : lib_only (Ahm.value_contains needle v).
Proof. unfold Ahm.value_contains. repeat lib_step. Qed.

#[local] Hint Resolve lib_only_get_ks_filter lib_only_px_column lib_only_value_contains : lib.

Lemma raises_lib_only_self_uuid element : raises_lib_only (Ahm.self_uuid element).
Proof. unfold Ahm.self_uuid. repeat lib_step. Qed.

#[local] Hint Resolve raises_lib_only_self_uuid : lib.

Lemma raises_lib_only_init uuid4 input_dir title :
  raises_lib_only (Ahm.__init__ uuid4 input_dir title).
Proof. unfold Ahm.__init__, Ahm.set_callbacks. repeat lib_step. Qed.

Lemma raises_lib_only_update_graph fs a b c : raises_lib_only (Ahm._update_graph fs a b c).
Proof. unfold Ahm._update_graph. repeat lib_step. Qed.

Lemma raises_lib_only_display_click_data fs celldata hist :
  raises_lib_only (Ahm._display_click_data fs celldata hist).
Proof. unfold Ahm._display_click_data. repeat lib_step. Qed.

Lemma raises_lib_only_generatetable fs choiceplot max_rows :
  raises_lib_only (Ahm._generatetable fs choiceplot max_rows).
Proof. unfold Ahm._generatetable. repeat lib_step. Qed.

Lemma raises_lib_only_invoke fs inv : raises_lib_only (Ahm.invoke fs inv).
Proof.
  destruct inv; simpl;
    auto using raises_lib_only_update_graph, raises_lib_only_display_click_data,
      raises_lib_only_generatetable.
Qed.

Import Timeseries.

Lemma lib_only_dataframe h self : lib_only (dataframe h self).
Proof. unfold dataframe. repeat lib_step. Qed.

Lemma lib_only_colors self : lib_only (colors self).
Proof. unfold colors. repeat lib_step. Qed.

#[local] Hint Resolve lib_only_dataframe lib_only_colors : lib.

Lemma lib_only_ensembles h self : lib_only (ensembles h self).
Proof. unfold ensembles. repeat lib_step. Qed.

#[local] Hint Resolve lib_only_ensembles : lib.

Lemma lib_only_ens_colors h self : lib_only (ens_colors h self).
Proof. unfold ens_colors. repeat lib_step. Qed.

#[local] Hint Resolve lib_only_ens_colors : lib.

Lemma lib_only_ens_color h self ensemble : lib_only (ens_color h self ensemble).
Proof. unfold ens_color. repeat lib_step. Qed.

Lemma lib_only_ensemble_rows h self names : lib_only (ensemble_rows h self names).
Proof. unfold ensemble_rows. repeat lib_step. Qed.

Lemma lib_only_add_history_trace self dframe vector :
  lib_only (add_history_trace self dframe vector).
Proof. unfold add_history_trace. repeat lib_step. Qed.

Lemma lib_only_add_fanchart_traces stats color group shape :
  lib_only (add_fanchart_traces stats color group shape).
Proof. unfold add_fanchart_traces. repeat lib_step. Qed.

#[local] Hint Resolve lib_only_ens_color lib_only_ensemble_rows lib_only_add_history_trace
  lib_only_add_fanchart_traces : lib.

Lemma lib_only_with_history self df vector traces :
  lib_only (with_history self df vector traces).
Proof. unfold with_history. repeat lib_step. Qed.

#[local] Hint Resolve lib_only_with_history : lib.

Lemma lib_only_add_statistic_traces h self ensembles vector :
  lib_only (add_statistic_traces h self ensembles vector).
Proof. unfold add_statistic_traces. repeat lib_step. Qed.

Lemma lib_only_add_ensset_realization_traces h self ensembles vector :
  lib_only (add_ensset_realization_traces h self ensembles vector).
Proof. unfold add_ensset_realization_traces. repeat lib_step. Qed.

Lemma lib_only_add_realization_traces h self ensemble vector real_filter :
  lib_only (add_realization_traces h self ensemble vector real_filter).
Proof. unfold add_realization_traces. repeat lib_step. Qed.

Lemma lib_only_undecorated h self c : lib_only (undecorated h self c).
Proof.
  destruct c; simpl;
    auto using lib_only_add_statistic_traces, lib_only_add_ensset_realization_traces,
      lib_only_add_realization_traces.
Qed.

(** C4, as amended.  [_prepare_and_validate_data] raises a [KeyError] that
    it builds itself, naming the first of ENSEMBLE, REAL and DATE that the
    frame lacks, and [colors] handles the [KeyError] of a theme without a
    layout colorway by falling back on the theme's colorway or the default
    palette.  Everything else that [__init__] of the plugin, the three
    callbacks and the three trace methods raise was built underneath them
    and propagates as it is. *)
Theorem own_exception_only_in_validation :
  (∀ dataframe (h : gmap nat (DataFrame Z)) df c rest,
     h !! dataframe = Some df →
     filter (λ c, c ∉ columns df) ["ENSEMBLE"; "REAL"; "DATE"] = c :: rest →
     _prepare_and_validate_data dataframe h
     = (Raise (Exn Own KeyError (c +:+ " column is missing from UNSMRY data")), h))
  ∧ (∀ self plotly_theme,
       theme self = Some plotly_theme →
       colors self
       = Ok (match theme_layout plotly_theme ≫= (.!! "colorway") with
             | Some cs => cs
             | None => default default_colorway (theme_colorway plotly_theme)
             end))
  ∧ (∀ uuid4 input_dir title self, lib_only (Ahm.__init__ uuid4 input_dir title self).1)
  ∧ (∀ fs inv self, lib_only (Ahm.invoke fs inv self).1)
  ∧ (∀ h self c, lib_only (undecorated h self c))
  ∧ (∀ fs a b c (self : gmap string string) inputdata e,
       self !! "input_dir" = Some inputdata → inputdata ≠ "" →
       read_csv_index0 fs (inputdata +:+ "active_obs_info.csv") = Raise e →
       (Ahm._update_graph fs a b c self).1 = Raise e).
Proof.
  split_and!.
  - intros dataframe h df c rest Hdf Hc. by rewrite prepare_run, Hdf, Hc.
  - intros self plotly_theme Hth. unfold colors. rewrite Hth.
    destruct (theme_layout plotly_theme) as [layout|]; simpl; [|done].
    unfold dict_getitem. by destruct (layout !! "colorway").
  - intros. apply raises_lib_only_init.
  - intros. apply raises_lib_only_invoke.
  - intros. apply lib_only_undecorated.
  - intros fs a b c self inputdata e Hdir Hne Hread.
    unfold Ahm._update_graph, mbind, stateful_bind, Ahm.getattr. rewrite Hdir.
    rewrite decide_False by done. unfold lift. by rewrite Hread.
Qed.

End Origins.

(** ** Masks and groups *)

Lemma df_mask_rows {L} (df : DataFrame L) (p : L * (string → value) → bool) :
  rows (df_mask df (p <$> rows df)) = filter (λ r, Is_true (p r)) (rows df).
Proof.
  unfold df_mask. cbn [rows]. induction (rows df) as [|r l IH]; [done|].
  rewrite fmap_cons. cbn [zip_with]. rewrite !filter_cons. cbn [snd].
  destruct (decide (Is_true (p r))); [rewrite fmap_cons|]; by rewrite IH.
Qed.

Lemma value_eqb_VStr (v : value) (s : string) :
  value_eqb v (VStr s) = true ↔ v = VStr s.
Proof.
  destruct v as [t| |]; simpl; try (split; [done|by intros [=]]).
  rewrite String.eqb_eq. split; [by intros ->|by intros [= ->]].
Qed.

Lemma key_eqb_VStr (v : value) (s : string) : key_eqb v (VStr s) = value_eqb v (VStr s).
Proof. unfold key_eqb. simpl. by rewrite andb_false_r, orb_false_r. Qed.

Lemma elem_of_nub_VStr (s : string) (l : list value) : VStr s ∈ l → VStr s ∈ nub l.
Proof.
  induction l as [|x l IH]; [done|]. simpl.
  intros [<-|Hin]%elem_of_cons; [by left|].
  destruct (key_eqb (VStr s) x) eqn:E.
  - unfold key_eqb in E. destruct x as [t| |]; try done.
    simpl in E. rewrite orb_false_r in E. apply String.eqb_eq in E as ->. by left.
  - right. apply list_elem_of_filter. split; [by rewrite E|by apply IH].
Qed.

Lemma elem_of_group_keys_VStr (s : string) (l : list value) :
  VStr s ∈ l → VStr s ∈ group_keys l.
Proof.
  intros Hin. unfold group_keys. apply elem_of_sorted, list_elem_of_filter.
  split; [by intros []|by apply elem_of_nub_VStr].
Qed.

Lemma groupby_Ok {L} (df : DataFrame L) key gb :
  groupby df key = Ok gb →
  key ∈ columns df
  ∧ gb = mkGroupBy key (columns df)
           ((λ k, (k, mkDataFrame (columns df)
                        (filter (λ r, Is_true (key_eqb (r.2 key) k)) (rows df))))
              <$> group_keys ((λ r : L * (string → value), r.2 key) <$> rows df)).
Proof.
  unfold groupby. intros (s & [Hc ->]%df_getitem_Ok & [= <-])%result_bind_Ok.
  split; [done|]. unfold values. by rewrite <- list_fmap_compose.
Qed.

Lemma drop_columns_Ok {L} (cs : list string) (df df' : DataFrame L) :
  drop_columns cs df = Ok df' →
  rows df' = rows df ∧ columns df' = filter (λ c, c ∉ cs) (columns df).
Proof. unfold drop_columns. destruct (filter _ cs); [|done]. by intros [= <-]. Qed.

(** A loop that only appends to its accumulator: what every round appended
    is in the result, in order. *)
Lemma for_each_extends {B T} (f : list T → B → result (list T)) (F : B → result (list T))
    (l : list B) (acc res : list T) :
  (∀ acc b acc', f acc b = Ok acc' → ∃ x, F b = Ok x ∧ acc' = acc ++ x) →
  for_each f acc l = Ok res →
  ∃ tail, res = acc ++ tail
          ∧ ∀ b, b ∈ l → ∃ pre post x, F b = Ok x ∧ tail = pre ++ x ++ post.
Proof.
  intros Hf. induction l as [|b l IH] in acc |- *.
  - intros [= <-]. exists []. split; [by rewrite app_nil_r|]. by intros b ?%elem_of_nil.
  - rewrite for_each_cons. intros (acc1 & E1 & E)%result_bind_Ok.
    apply Hf in E1 as (x & Hx & ->). apply IH in E as (tail & -> & Htail).
    exists (x ++ tail). split; [by rewrite app_assoc|].
    intros b' [->|Hb']%elem_of_cons.
    + by exists [], tail, x.
    + destruct (Htail _ Hb') as (pre & post & x' & Hx' & ->).
      exists (x ++ pre), post, x'. split; [done|]. by rewrite <- app_assoc.
Qed.

(** The part of a series under a first label: the block that carries it. *)
Lemma filter_block {A L} (name name' : string) (k : A → L) (v : A → value) (l : list A) :
  filter (λ e : (string * L) * value, e.1.1 = name) ((λ a, ((name', k a), v a)) <$> l)
  = if decide (name' = name) then (λ a, ((name', k a), v a)) <$> l else [].
Proof.
  induction l as [|a l IH]; [by destruct (decide _)|].
  rewrite fmap_cons, filter_cons, IH. cbn [fst].
  by destruct (decide (name' = name)).
Qed.

(** ** The statistics traces *)

Section TimeseriesStatistics.
Context `{Library} `{Framework}.
Import Timeseries.

Lemma ensemble_rows_Ok h self names d :
  ensemble_rows h self names = Ok d →
  ∃ df, dataframe h self = Ok df
        ∧ columns d = columns df
        ∧ rows d = filter (λ r, Is_true (isin names (r.2 "ENSEMBLE"))) (rows df).
Proof.
  unfold ensemble_rows.
  intros (df & Hdf & (col & [Hc ->]%df_getitem_Ok & [= <-])%result_bind_Ok)%result_bind_Ok.
  exists df. split_and!; [done..|].
  unfold values. rewrite <- !list_fmap_compose.
  apply (df_mask_rows df (λ r, isin names (r.2 "ENSEMBLE"))).
Qed.

Lemma with_history_Ok self df vector traces res :
  with_history self df vector traces = Ok res → ∃ tail, res = traces ++ tail.
Proof.
  unfold with_history. destruct (historical_vector _ _); [|intros [= <-]; exists []; by rewrite app_nil_r].
  destruct (decide _); [|intros [= <-]; exists []; by rewrite app_nil_r].
  intros (t & _ & [= <-])%result_bind_Ok. by exists [t].
Qed.

(** The rows of ensemble [e] among the rows that the mask lets through. *)
Lemma rows_of_requested_ensemble (df : DataFrame Z) names e :
  e ∈ names →
  filter (λ r : Z * (string → value), Is_true (key_eqb (r.2 "ENSEMBLE") (VStr e)))
    (filter (λ r, Is_true (isin names (r.2 "ENSEMBLE"))) (rows df))
  = rows_of_ensemble df e.
Proof.
  intros He. unfold rows_of_ensemble.
  rewrite list_filter_filter_l.
  - apply list_filter_iff. intros r. by rewrite key_eqb_VStr.
  - intros r Hr. rewrite key_eqb_VStr in Hr. apply Is_true_true, value_eqb_VStr in Hr.
    rewrite Hr. simpl. by apply bool_decide_pack.
Qed.

Lemma xs_Ok {L} (s : Series (string * L)) name part :
  xs s name = Ok part →
  part = (λ e : (string * L) * value, (e.1.2, e.2)) <$> filter (λ e, e.1.1 = name) s.
Proof. unfold xs. destruct (filter _ s); [done|]. by intros [= <-]. Qed.

Lemma statistics_series (gb : GroupBy Z) (vector : string) :
  (λ r : (string * value) * (string → value), (r.1, r.2 vector))
    <$> rows (concat (statistics_of gb))
  = stat_block gb vector "mean" group_mean
    ++ stat_block gb vector "p10" (group_quantile (10 / 100)%float)
    ++ stat_block gb vector "p90" (group_quantile (90 / 100)%float)
    ++ stat_block gb vector "maximum" group_max
    ++ stat_block gb vector "minimum" group_min.
Proof.
  unfold concat, statistics_of, stat_block, groupby_agg. cbn [rows mbind list_bind fst snd].
  rewrite app_nil_r, !fmap_app, <- !list_fmap_compose. done.
Qed.

Lemma xs_statistics (gb : GroupBy Z) (vector name : string) (f : list value → value) part :
  (name, f) ∈ [ ("mean", group_mean); ("p10", group_quantile (10 / 100)%float);
                ("p90", group_quantile (90 / 100)%float); ("maximum", group_max);
                ("minimum", group_min) ] →
  xs ((λ r : (string * value) * (string → value), (r.1, r.2 vector))
        <$> rows (concat (statistics_of gb))) name = Ok part →
  part = (λ g : value * DataFrame Z,
            (g.1, f ((λ r : Z * (string → value), r.2 vector) <$> rows g.2)))
           <$> groups gb.
Proof.
  intros Hin ->%xs_Ok. rewrite statistics_series. unfold stat_block.
  rewrite !filter_app, !filter_block.
  repeat (apply elem_of_cons in Hin as [[= -> ->]|Hin]; [simpl; rewrite ?app_nil_r, <- list_fmap_compose; done|]).
  by apply elem_of_nil in Hin.
Qed.

Lemma groups_stat_line (f : list value → value) (df : DataFrame Z) (e vector : string)
    (cols : list string) (rows_e : list (Z * (string → value))) :
  rows_e = rows_of_ensemble df e →
  (λ g : value * DataFrame Z,
     (g.1, f ((λ r : Z * (string → value), r.2 vector) <$> rows g.2)))
    <$> ((λ k, (k, mkDataFrame cols
                     (filter (λ r, Is_true (key_eqb (r.2 "DATE") k)) rows_e)))
           <$> group_keys ((λ r : Z * (string → value), r.2 "DATE") <$> rows_e))
  = stat_line f df e vector.
Proof. intros ->. unfold stat_line, dates_of, cells_of. by rewrite <- list_fmap_compose. Qed.

Lemma ensemble_fan_Ok h self vector (df : DataFrame Z) cols e fan :
  ensemble_fan h self vector (VStr e, mkDataFrame cols (rows_of_ensemble df e)) = Ok fan →
  ∃ color,
    ens_color h self (VStr e) = Ok color
    ∧ fan = fan_of df e vector color (get_line_shape self vector).
Proof.
  unfold ensemble_fan. cbn [fst snd].
  intros (dropped & [Hrows Hcols]%drop_columns_Ok & E)%result_bind_Ok.
  apply result_bind_Ok in E as (dframe & [Hdate ->]%groupby_Ok & E).
  apply result_bind_Ok in E as (stats & [Hvec ->]%df_getitem_Ok & E).
  apply result_bind_Ok in E as (color & Hcolor & E).
  exists color. split; [done|].
  unfold add_fanchart_traces in E. cbn [rows] in Hrows.
  apply result_bind_Ok in E as (maximum & Hmax & E).
  apply result_bind_Ok in E as (p10 & Hp10 & E).
  apply result_bind_Ok in E as (mean & Hmean & E).
  apply result_bind_Ok in E as (p90 & Hp90 & E).
  apply result_bind_Ok in E as (minimum & Hmin & E).
  apply (xs_statistics _ _ _ group_max) in Hmax; [|set_solver].
  apply (xs_statistics _ _ _ (group_quantile (10 / 100)%float)) in Hp10; [|set_solver].
  apply (xs_statistics _ _ _ group_mean) in Hmean; [|set_solver].
  apply (xs_statistics _ _ _ (group_quantile (90 / 100)%float)) in Hp90; [|set_solver].
  apply (xs_statistics _ _ _ group_min) in Hmin; [|set_solver].
  cbn [groups] in *.
  rewrite (groups_stat_line _ df e) in Hmax by done.
  rewrite (groups_stat_line _ df e) in Hp10 by done.
  rewrite (groups_stat_line _ df e) in Hmean by done.
  rewrite (groups_stat_line _ df e) in Hp90 by done.
  rewrite (groups_stat_line _ df e) in Hmin by done.
  subst. by injection E as <-.
Qed.

(** C1.  For a requested ensemble that has rows, the traces hold the fan
    of that ensemble: five traces named after it whose x-values are the
    dates of its rows, each once and in order, and whose y-values at each
    date are the maximum, the 10th percentile, the mean, the 90th percentile
    and the minimum of the vector over the rows of the ensemble at that
    date.  Every date at which the ensemble has a row is among them. *)
Theorem add_statistic_traces_fan h self ensembles vector traces df e :
  add_statistic_traces h self ensembles vector = Ok traces →
  dataframe h self = Ok df →
  e ∈ as_list ensembles →
  (∃ r, r ∈ rows df ∧ r.2 "ENSEMBLE" = VStr e) →
  ∃ before after color,
    let fan := fan_of df e vector color (get_line_shape self vector) in
    let y f := NdArray ((λ d, f (cells_of df e d vector)) <$> dates_of df e) in
    ens_color h self (VStr e) = Ok color
    ∧ traces = before ++ fan ++ after
    ∧ tr_hovertext <$> fan = Some <$> ["Maximum"; "P10"; "Mean"; "P90"; "Minimum"]
    ∧ Forall (λ t, tr_name t = VStr e ∧ tr_x t = PyList (dates_of df e)) fan
    ∧ tr_y <$> fan = [ y group_max; y (group_quantile (10 / 100)%float); y group_mean;
                       y (group_quantile (90 / 100)%float); y group_min ]
    ∧ ∀ d, (∃ r, r ∈ rows df ∧ r.2 "ENSEMBLE" = VStr e ∧ r.2 "DATE" = VStr d) →
           VStr d ∈ dates_of df e.
Proof.
  unfold add_statistic_traces.
  intros (d0 & (df' & Hdf' & Hcols & Hrows)%ensemble_rows_Ok & E)%result_bind_Ok Hdf He
    (r0 & Hr0 & Hens).
  rewrite Hdf in Hdf'. injection Hdf' as <-.
  apply result_bind_Ok in E as (gb & [Hkey ->]%groupby_Ok & E).
  apply result_bind_Ok in E as (traces0 & E & (tail & ->)%with_history_Ok).
  cbn [groups] in E.
  apply (for_each_extends _ (ensemble_fan h self vector)) in E as (tail0 & -> & Hfans).
  2:{ intros acc [ensemble ens_df] acc'. unfold ensemble_fan. cbn [fst snd].
      intros (dropped & -> & E1)%result_bind_Ok. cbn [mbind result_bind].
      apply result_bind_Ok in E1 as (dframe & -> & E1). cbn [mbind result_bind].
      apply result_bind_Ok in E1 as (stats & -> & E1). cbn [mbind result_bind].
      apply result_bind_Ok in E1 as (color & -> & E1). cbn [mbind result_bind].
      apply result_bind_Ok in E1 as (fan & -> & [= <-]). eauto. }
  assert (Hin : r0 ∈ rows_of_ensemble df e).
  { apply list_elem_of_filter. split; [|done]. by apply Is_true_true, value_eqb_VStr. }
  destruct (Hfans (VStr e, mkDataFrame (columns d0) (rows_of_ensemble df e)))
    as (pre & post & fan & Hfan & ->).
  { rewrite <- (rows_of_requested_ensemble df (as_list ensembles) e He), <- Hrows.
    apply list_elem_of_fmap. exists (VStr e). split; [done|].
    apply elem_of_group_keys_VStr. rewrite <- Hens.
    apply (list_elem_of_fmap_2 (λ r : Z * (string → value), r.2 "ENSEMBLE")).
    rewrite Hrows. apply list_elem_of_filter. split; [|done].
    rewrite Hens. simpl. by apply bool_decide_pack. }
  apply ensemble_fan_Ok in Hfan as (color & Hcolor & ->).
  exists pre, (post ++ tail), color. cbn zeta.
  assert (Hx : ∀ f, (stat_line f df e vector).*1 = dates_of df e).
  { intros f. unfold stat_line. rewrite <- list_fmap_compose. apply list_fmap_id. }
  assert (Hy : ∀ f, values (stat_line f df e vector)
                    = (λ d, f (cells_of df e d vector)) <$> dates_of df e).
  { intros f. unfold stat_line, values. by rewrite <- list_fmap_compose. }
  split_and!; [done|by rewrite app_nil_l, <- !app_assoc|done| | |].
  { unfold fan_of, fan_trace. repeat constructor; simpl; by rewrite Hx. }
  { unfold fan_of, fan_trace. simpl. by rewrite !Hy. }
  intros d (r & Hr & Hre & Hrd). apply elem_of_group_keys_VStr. rewrite <- Hrd.
  apply (list_elem_of_fmap_2 (λ r : Z * (string → value), r.2 "DATE")).
  apply list_elem_of_filter. split; [|done]. by apply Is_true_true, value_eqb_VStr.
Qed.

End TimeseriesStatistics.


(** ** The memoizing decorator *)

Section MemoizeFacts.
Context {K V : Type} `{Countable K}.
Import Timeseries.

Lemma memoize_result (f : K → result V) k cache :
  cache_consistent f cache → (memoize f k cache).1 = f k.
Proof.
  intros Hc. unfold memoize. destruct (cache !! k) as [v|] eqn:E; simpl.
  - symmetry. by apply Hc.
  - by destruct (f k).
Qed.

Lemma memoize_consistent (f : K → result V) k cache :
  cache_consistent f cache → cache_consistent f (memoize f k cache).2.
Proof.
  intros Hc. unfold memoize. destruct (cache !! k) as [v|] eqn:E; simpl; [done|].
  destruct (f k) as [v|e] eqn:Ef; simpl; [|done].
  intros k' v'. rewrite lookup_insert. destruct (decide (k = k')) as [<-|]; [|apply Hc].
  by intros [= <-].
Qed.

End MemoizeFacts.

Section TimeseriesMemo.
Context `{Library} `{Framework}.
Import Timeseries.

Lemma undecorated_frame h h' self c :
  h !! _dataframe self = h' !! _dataframe self →
  undecorated h self c = undecorated h' self c.
Proof.
  intros Heq.
  destruct c; simpl;
    unfold add_statistic_traces, add_ensset_realization_traces, add_realization_traces,
      ensemble_rows, ens_color, ens_colors, ensembles, dataframe, deref;
    by rewrite Heq.
Qed.

Lemma step_consistent self st ev :
  ¬ changes_frame_of self ev →
  cache_consistent (undecorated st.1 self) st.2 →
  cache_consistent (undecorated (step self st ev).1 self) (step self st ev).2.
Proof.
  intros Hev Hc. destruct ev as [c|c| |l df]; simpl.
  - by apply memoize_consistent.
  - intros k' v' [_ ?]%lookup_delete_Some. by apply Hc.
  - by intros k' v'.
  - intros k v Hk. rewrite <- (undecorated_frame st.1); [by apply Hc|].
    simpl in Hev. by rewrite lookup_insert_ne.
Qed.

Lemma after_consistent self h history :
  Forall (λ ev, ¬ changes_frame_of self ev) history →
  cache_consistent (undecorated (after self h history).1 self) (after self h history).2.
Proof.
  unfold after. intros Hall.
  assert (H0' : cache_consistent (undecorated (h, ∅ : gmap Call (list Trace)).1 self)
                  (h, ∅ : gmap Call (list Trace)).2) by by intros k v.
  revert H0'. generalize (h, ∅ : gmap Call (list Trace)).
  induction Hall as [|ev history Hev _ IH]; intros st Hst; simpl; [done|].
  by apply IH, step_consistent.
Qed.

(** C3, as amended.  As long as the frame behind the model is not changed
    in place, each of the three decorated methods returns (or raises) what
    the function under the decorator returns (or raises) on the same
    arguments: whatever calls went before, whichever entries have timed
    out, however often the cache was cleared and whatever happened to
    other frames. *)
Theorem memoize_transparent_on_unchanged_frame (h0 : gmap nat (DataFrame Z)) (self : Model)
    (history : list Event) :
  Forall (λ ev, ¬ changes_frame_of self ev) history →
  let h := (after self h0 history).1 in
  let cache := (after self h0 history).2 in
  h !! _dataframe self = h0 !! _dataframe self
  ∧ (∀ ensembles vector,
       (memoized h self (StatisticTraces ensembles vector) cache).1
       = add_statistic_traces h self ensembles vector)
  ∧ (∀ ensembles vector,
       (memoized h self (EnssetRealizationTraces ensembles vector) cache).1
       = add_ensset_realization_traces h self ensembles vector)
  ∧ (∀ ensemble vector real_filter,
       (memoized h self (RealizationTraces ensemble vector real_filter) cache).1
       = add_realization_traces h self ensemble vector real_filter).
Proof.
  intros Hall h cache.
  assert (Hc : cache_consistent (undecorated h self) cache) by by apply after_consistent.
  split_and!; [|intros; unfold memoized; by rewrite memoize_result..].
  subst h. clear Hc cache. unfold after.
  change h0 with (h0, ∅ : gmap Call (list Trace)).1 at 2.
  generalize (h0, ∅ : gmap Call (list Trace)).
  induction Hall as [|ev history Hev _ IH]; intros st; simpl; [done|].
  rewrite IH. destruct ev; simpl; try done.
  simpl in Hev. by rewrite lookup_insert_ne.
Qed.

End TimeseriesMemo.

Section TimeseriesExamples.
Import Sample.
Import Timeseries.

(** C3 as stated fails.  The key of a call carries the method and its
    arguments, not the rows of the frame: after the rows of [iter-1] were
    dropped from the frame behind the model, the decorated call still
    returns the eleven traces stored before, and the function under the
    decorator returns six. *)
Lemma memoized_stale_after_frame_change :
  let c := StatisticTraces (EnsList ["iter-0"; "iter-1"]) "FOPT" in
  let st := after model heap' [Invoked c; FrameChanged 7 iter0_only] in
  st.1 !! 7 = Some iter0_only
  ∧ (memoized st.1 model c st.2).1 = add_statistic_traces heap' model (EnsList ["iter-0"; "iter-1"]) "FOPT"
  ∧ (∃ traces, (memoized st.1 model c st.2).1 = Ok traces ∧ length traces = 11)
  ∧ (∃ traces, add_statistic_traces st.1 model (EnsList ["iter-0"; "iter-1"]) "FOPT"
               = Ok traces ∧ length traces = 6)
  ∧ (memoized st.1 model c st.2).1
    ≠ add_statistic_traces st.1 model (EnsList ["iter-0"; "iter-1"]) "FOPT".
Proof.
  intros c st.
  assert (Hstale : ∃ traces, (memoized st.1 model c st.2).1 = Ok traces ∧ length traces = 11).
  { eexists. split; [vm_compute; reflexivity|reflexivity]. }
  assert (Hfresh : ∃ traces,
            add_statistic_traces st.1 model (EnsList ["iter-0"; "iter-1"]) "FOPT" = Ok traces
            ∧ length traces = 6).
  { eexists. split; [vm_compute; reflexivity|reflexivity]. }
  split_and!; [vm_compute; reflexivity|vm_compute; reflexivity|done|done|].
  destruct Hstale as (stale & -> & Hs), Hfresh as (fresh & -> & Hf).
  intros [= ->]. congruence.
Qed.

(** C3 as amended, on a history that changes another frame. *)
Lemma memoize_transparent_on_unchanged_frame_witness :
  let c := StatisticTraces (EnsList ["iter-0"; "iter-1"]) "FOPT" in
  let st := after model heap'
              [Invoked c; FrameChanged 8 iter0_only; Expired c; Invoked c] in
  st.1 !! 8 = Some iter0_only
  ∧ is_Some (st.2 !! c)
  ∧ (memoized st.1 model c st.2).1
    = add_statistic_traces st.1 model (EnsList ["iter-0"; "iter-1"]) "FOPT"
  ∧ ∃ traces, (memoized st.1 model c st.2).1 = Ok traces ∧ length traces = 11.
Proof.
  intros c st.
  destruct (memoize_transparent_on_unchanged_frame (H := library) (H0 := framework) heap' model
              [Invoked c; FrameChanged 8 iter0_only; Expired c; Invoked c])
    as (_ & Hstat & _ & _).
  { repeat (apply Forall_cons_2; [simpl; (tauto || lia)|]). apply Forall_nil_2. }
  split_and!.
  - vm_compute. reflexivity.
  - vm_compute. by eexists.
  - apply Hstat.
  - eexists. split; [vm_compute; reflexivity|reflexivity].
Defined.


(** C4 as stated fails: on a frame without a DATE column the validation
    raises an exception of its own making. *)
Lemma validation_raises_its_own :
  Timeseries._prepare_and_validate_data 7 {[ 7 := undated ]}
  = (Raise (Exn Own KeyError "DATE column is missing from UNSMRY data"), {[ 7 := undated ]})
  ∧ ¬ (∀ dataframe (h : gmap nat (DataFrame Z)),
         lib_only (Timeseries._prepare_and_validate_data dataframe h).1).
Proof.
  assert (E : Timeseries._prepare_and_validate_data 7 {[ 7 := undated ]}
              = (Raise (Exn Own KeyError "DATE column is missing from UNSMRY data"),
                 {[ 7 := undated ]})).
  { rewrite prepare_run. reflexivity. }
  split; [exact E|]. intros Hall.
  specialize (Hall 7 {[ 7 := undated ]} _ (f_equal fst E)). discriminate.
Qed.

(** C4 as amended, on the frame without a DATE column. *)
Lemma own_exception_only_in_validation_witness :
  Timeseries._prepare_and_validate_data 7 {[ 7 := undated ]}
  = (Raise (Exn Own KeyError ("DATE" +:+ " column is missing from UNSMRY data")),
     {[ 7 := undated ]}).
Proof.
  apply (proj1 (own_exception_only_in_validation (H := library) (H0 := framework)))
    with (df := undated) (rest := []); reflexivity.
Defined.

(** C8 on a frame whose dates are numbers: behind the caller's reference
    [7] the DATE column now holds their [str], and REAL and FOPT are what
    they were. *)
Lemma init_converts_DATE_in_place_witness :
  ∃ df',
    Timeseries.__init__ 7 (Some plotly_theme) None "linear" {[ 7 := numbered ]}
    = (Ok model, {[ 7 := df' ]})
    ∧ values <$> df_getitem numbered "DATE" = Ok [VInt 20000101; VInt 20010101]
    ∧ values <$> df_getitem df' "DATE" = Ok [VStr "20000101"; VStr "20010101"]
    ∧ values <$> df_getitem df' "REAL" = values <$> df_getitem numbered "REAL"
    ∧ values <$> df_getitem df' "FOPT" = values <$> df_getitem numbered "FOPT".
Proof.
  destruct (proj1 (init_converts_DATE_in_place (H := library) (H0 := framework)
                     7 (Some plotly_theme) None "linear" {[ 7 := numbered ]}) numbered)
    as (df' & Hrun & _ & _ & Hdate & Hother).
  { reflexivity. }
  { vm_compute. left. }
  { vm_compute. right. left. }
  { vm_compute. right. right. left. }
  exists df'. rewrite Hrun, insert_singleton, Hdate, !Hother by done.
  split_and!; [reflexivity|reflexivity|vm_compute; reflexivity|reflexivity..].
Defined.

(** C1 on the sample model: the mean line of ensemble [iter-0]. *)
Lemma add_statistic_traces_fan_witness :
  ∃ df traces before after color,
    Timeseries.dataframe heap' model = Ok df
    ∧ Timeseries.add_statistic_traces heap' model
        (Timeseries.EnsList ["iter-0"; "iter-1"]) "FOPT" = Ok traces
    ∧ traces = before ++ Timeseries.fan_of df "iter-0" "FOPT" color "linear" ++ after
    ∧ Timeseries.dates_of df "iter-0" = [VStr "2000-01-01"; VStr "2001-01-01"]
    ∧ (λ d, group_mean (Timeseries.cells_of df "iter-0" d "FOPT"))
        <$> Timeseries.dates_of df "iter-0" = [VFloat 1.5; VFloat 4].
Proof.
  eexists _, _.
  edestruct (add_statistic_traces_fan (H := library) (H0 := framework) heap' model
               (Timeseries.EnsList ["iter-0"; "iter-1"]) "FOPT")
    as (before & after & color & Hcolor & Htraces & _).
  { vm_compute. reflexivity. }
  { reflexivity. }
  { by left. }
  { eexists. split; [vm_compute; left|reflexivity]. }
  exists before, after, color.
  split; [reflexivity|]. split; [vm_compute; reflexivity|].
  split; [exact Htraces|]. split; vm_compute; reflexivity.
Defined.

End TimeseriesExamples.
